(** * photography.importer: the destination decider and the journaled ingest

    A shallow embedding of [src/photography/importer.py].  Python strings
    are [string]s whose characters are read as the code points 0..255;
    a [pathlib.Path] is the list of its components below the root; the
    file system is an explicit store threaded through the code, together
    with the two [cached_property] slots of an [Importer].  What the
    libraries raise (a refused [mkdir] or [rename], a time stamp
    [datetime] cannot hold, a pattern [glob] rejects) is an exception of
    the model, as is the [ValueError] the importer raises itself. *)

From Stdlib Require Import ZArith List Bool Ascii String Lia.
Import ListNotations.

Open Scope string_scope.
Open Scope Z_scope.

(** ** Python [str] operations *)

Module Str.

Definition code (c : ascii) : N := N_of_ascii c.

Definition between (lo hi : N) (c : ascii) : bool :=
  ((lo <=? code c) && (code c <=? hi))%N.

(** [re]'s [\d] on code points below 256: the ten ASCII digits. *)
Definition is_decimal (c : ascii) : bool := between 48 57 c.

(** [str.isdigit] on one character: the decimal digits and the
    superscripts two, three and one (U+00B2, U+00B3, U+00B9).  Digits
    of other scripts lie beyond the code points a [string] holds here;
    the statements below that depend on which characters are digits say
    so in their hypotheses. *)
Definition isdigit_char (c : ascii) : bool :=
  is_decimal c || (code c =? 178)%N || (code c =? 179)%N || (code c =? 185)%N.

Fixpoint all_chars (f : ascii -> bool) (s : string) : bool :=
  match s with
  | EmptyString => true
  | String c s' => f c && all_chars f s'
  end.

(** [str.isdigit]: false on the empty string. *)
Definition isdigit (s : string) : bool :=
  match s with
  | EmptyString => false
  | _ => all_chars isdigit_char s
  end.

(** [str.lower] on one character: A-Z, and U+00C0..U+00DE but the
    multiplication sign. *)
Definition lower_char (c : ascii) : ascii :=
  if between 65 90 c || (between 192 222 c && negb (code c =? 215)%N)
  then ascii_of_N (code c + 32) else c.

(** The upper-case partner inside the code points below 256. *)
Definition upper_char (c : ascii) : ascii :=
  if between 97 122 c || (between 224 254 c && negb (code c =? 247)%N)
  then ascii_of_N (code c - 32) else c.

Fixpoint lower (s : string) : string :=
  match s with
  | EmptyString => EmptyString
  | String c s' => String (lower_char c) (lower s')
  end.

(** [str.split(sep)] for a one-character separator: never empty, empty
    fields kept. *)
Fixpoint split (sep : ascii) (s : string) : list string :=
  match s with
  | EmptyString => [EmptyString]
  | String c s' =>
      if Ascii.eqb c sep then EmptyString :: split sep s'
      else match split sep s' with
           | [] => [String c EmptyString]
           | p :: ps => String c p :: ps
           end
  end.

(** [str.startswith(c)] for one character. *)
Definition startswith (c : ascii) (s : string) : bool :=
  match s with
  | String c' _ => Ascii.eqb c' c
  | EmptyString => false
  end.

(** [str.lstrip(c)] for one character. *)
Fixpoint lstrip (c : ascii) (s : string) : string :=
  match s with
  | String c' s' => if Ascii.eqb c' c then lstrip c s' else s
  | EmptyString => EmptyString
  end.

(** [str.rpartition(sep)] for a one-character separator, as the pair of
    the part before the last [sep] and the part after it; without a
    [sep] the first part is empty and the second is the whole string. *)
Fixpoint rpartition (sep : ascii) (s : string) : option string * string :=
  match s with
  | EmptyString => (None, EmptyString)
  | String c s' =>
      match rpartition sep s' with
      | (Some h, t) => (Some (String c h), t)
      | (None, t) =>
          if Ascii.eqb c sep then (Some EmptyString, t)
          else (None, String c t)
      end
  end.

Definition rpartition_head (sep : ascii) (s : string) : string :=
  match fst (rpartition sep s) with Some h => h | None => EmptyString end.

Definition rpartition_tail (sep : ascii) (s : string) : string :=
  snd (rpartition sep s).

Definition contains (c : ascii) (s : string) : bool :=
  negb (all_chars (fun c' => negb (Ascii.eqb c' c)) s).

End Str.

(** ** [pathlib.Path] *)

Definition Path := list string.

Module PathOps.

Fixpoint eqb (p q : Path) : bool :=
  match p, q with
  | [], [] => true
  | a :: p', b :: q' => String.eqb a b && eqb p' q'
  | _, _ => false
  end.

(** [Path.name]: the last component, empty for the root. *)
Definition name (p : Path) : string := last p EmptyString.

(** [Path.parent]; the root is its own parent. *)
Definition parent (p : Path) : Path := removelast p.

(** The components a string contributes when it is parsed as a path:
    split on the slash, empty and single-dot components dropped. *)
Definition segments (s : string) : Path :=
  filter (fun c => negb (String.eqb c "" || String.eqb c "."))
         (Str.split "/" s).

(** [self / s] and [self.joinpath(s)]: an absolute right operand
    replaces the left one. *)
Definition joinpath (p : Path) (s : string) : Path :=
  if Str.startswith "/" s then segments s else (p ++ segments s)%list.

(** [Path.suffix] and [Path.stem]: cut at the last dot of the name when
    that dot is neither its first nor its last character. *)
Definition suffix_of_name (n : string) : string :=
  match Str.rpartition "." n with
  | (Some (String _ _), String c t) => String "." (String c t)
  | _ => EmptyString
  end.

Definition stem_of_name (n : string) : string :=
  match Str.rpartition "." n with
  | (Some (String a h), String _ _) => String a h
  | _ => n
  end.

Definition suffix (p : Path) : string := suffix_of_name (name p).
Definition stem (p : Path) : string := stem_of_name (name p).

End PathOps.

Notation "p // s" := (PathOps.joinpath p s) (at level 40, left associativity).

(** A name a directory entry can have: not empty, not the dot entries,
    no slash. *)
Definition entry_name (n : string) : bool :=
  negb (String.eqb n "") && negb (String.eqb n ".")
  && negb (String.eqb n "..") && negb (Str.contains "/" n).

(** ** Calendar dates and [datetime] *)

Module Date.

Record date := mkdate { year : Z; month : Z; day : Z }.

Definition is_leap (y : Z) : bool :=
  ((y mod 4 =? 0) && negb (y mod 100 =? 0)) || (y mod 400 =? 0).

Definition days_in_month (y m : Z) : Z :=
  if m =? 2 then (if is_leap y then 29 else 28)
  else if (m =? 4) || (m =? 6) || (m =? 9) || (m =? 11) then 30
  else 31.

(** What the [datetime] constructor accepts. *)
Definition valid (d : date) : bool :=
  (1 <=? year d) && (year d <=? 9999)
  && (1 <=? month d) && (month d <=? 12)
  && (1 <=? day d) && (day d <=? days_in_month (year d) (month d)).

(** The proleptic Gregorian date of a day number counted from
    1970-01-01. *)
Definition of_days (n : Z) : date :=
  let z := n + 719468 in
  let era := z / 146097 in
  let doe := z - era * 146097 in
  let yoe := (doe - doe / 1460 + doe / 36524 - doe / 146096) / 365 in
  let doy := doe - (365 * yoe + yoe / 4 - yoe / 100) in
  let mp := (5 * doy + 2) / 153 in
  let d := doy - (153 * mp + 2) / 5 + 1 in
  let m := if mp <? 10 then mp + 3 else mp - 9 in
  let y := yoe + era * 400 in
  mkdate (if m <=? 2 then y + 1 else y) m d.

(** The day number of a date, counted from 1970-01-01. *)
Definition to_days (d : date) : Z :=
  let y := if month d <=? 2 then year d - 1 else year d in
  let era := y / 400 in
  let yoe := y - era * 400 in
  let mp := if month d <=? 2 then month d + 9 else month d - 3 in
  let doy := (153 * mp + 2) / 5 + day d - 1 in
  let doe := yoe * 365 + yoe / 4 - yoe / 100 + doy in
  era * 146097 + doe - 719468.

Definition us_per_day : Z := 86400 * 1000000.

(** [datetime.fromtimestamp(t, tz=UTC)], date part.  A time stamp is
    held in microseconds since the epoch, the resolution of [datetime].
    [None] stands for the [ValueError] (or [OverflowError]) of a time
    stamp outside the years 1 to 9999. *)
Definition fromtimestamp (us : Z) : option date :=
  let d := of_days (us / us_per_day) in
  if (1 <=? year d) && (year d <=? 9999) then Some d else None.

Definition digit (n : Z) : ascii := ascii_of_N (48 + Z.to_N (n mod 10)).

Fixpoint digits (fuel : nat) (n : Z) (acc : string) : string :=
  match fuel with
  | O => acc
  | S f => if n <? 10 then String (digit n) acc
           else digits f (n / 10) (String (digit n) acc)
  end.

Definition decimal (n : Z) : string :=
  digits (S (Z.to_nat (Z.log2 n))) (Z.max n 0) "".

Fixpoint zeros (k : nat) : string :=
  match k with O => "" | S k' => String "0" (zeros k') end.

Definition zfill (w : nat) (s : string) : string :=
  zeros (w - String.length s) ++ s.

(** The directives [%Y], [%m] and [%d] of [strftime].  The C library
    writes the year as it is, without leading zeros: 999 for the year
    999. *)
Definition fmt_Y (d : date) : string := decimal (year d).
Definition fmt_m (d : date) : string := zfill 2 (decimal (month d)).
Definition fmt_d (d : date) : string := zfill 2 (decimal (day d)).

(** [f"{dt:%Y/%m/%d}"]. *)
Definition strftime_Ymd (d : date) : string :=
  fmt_Y d ++ "/" ++ fmt_m d ++ "/" ++ fmt_d d.

Definition digit_value (c : ascii) : Z := Z.of_N (Str.code c) - 48.

(** The alternatives of [%m] in [strptime]'s regular expression,
    [1[0-2]|0[1-9]|[1-9]], in their order: each gives the value and the
    rest of the input. *)
Definition month_alts (s : string) : list (Z * string) :=
  match s with
  | String a (String b r) =>
      ((if Ascii.eqb a "1" && Str.between 48 50 b
        then [(10 + digit_value b, r)] else [])
       ++ (if Ascii.eqb a "0" && Str.between 49 57 b
           then [(digit_value b, r)] else [])
       ++ (if Str.between 49 57 a then [(digit_value a, String b r)] else []))%list
  | String a EmptyString =>
      if Str.between 49 57 a then [(digit_value a, EmptyString)] else []
  | EmptyString => []
  end.

(** The alternatives of [%d], [3[0-1]|[1-2]\d|0[1-9]|[1-9]| [1-9]]. *)
Definition day_alts (s : string) : list (Z * string) :=
  match s with
  | String a (String b r) =>
      ((if Ascii.eqb a "3" && Str.between 48 49 b
        then [(30 + digit_value b, r)] else [])
       ++ (if Str.between 49 50 a && Str.is_decimal b
           then [(10 * digit_value a + digit_value b, r)] else [])
       ++ (if Ascii.eqb a "0" && Str.between 49 57 b
           then [(digit_value b, r)] else [])
       ++ (if Str.between 49 57 a then [(digit_value a, String b r)] else [])
       ++ (if Ascii.eqb a " " && Str.between 49 57 b
           then [(digit_value b, r)] else []))%list
  | String a EmptyString =>
      if Str.between 49 57 a then [(digit_value a, EmptyString)] else []
  | EmptyString => []
  end.

(** The first match of [%m%d] from the start of the input, as the
    regular expression engine finds it: the first month alternative
    after which some day alternative matches, with the first such day. *)
Definition month_day_match (s : string) : option (Z * Z * string) :=
  hd_error
    (flat_map (fun mr => map (fun dr => (fst mr, fst dr, snd dr))
                             (day_alts (snd mr)))
              (month_alts s)).

(** The first match of the expression for [%Y%m%d]: four decimal
    digits, then the month and the day. *)
Definition first_match (s : string) : option (Z * Z * Z * string) :=
  match s with
  | String a (String b (String c (String d r))) =>
      if Str.is_decimal a && Str.is_decimal b && Str.is_decimal c
         && Str.is_decimal d
      then
        let y := 1000 * digit_value a + 100 * digit_value b
                 + 10 * digit_value c + digit_value d in
        match month_day_match r with
        | Some (m, d, rest) => Some (y, m, d, rest)
        | None => None
        end
      else None
  | _ => None
  end.

(** [datetime.strptime(s, "%Y%m%d")]: [None] stands for the
    [ValueError] of an input that does not match, leaves unconverted
    data, or names no date. *)
Definition strptime_Ymd (s : string) : option date :=
  match first_match s with
  | Some (y, m, d, EmptyString) =>
      let dt := mkdate y m d in
      if valid dt then Some dt else None
  | _ => None
  end.

End Date.

(** ** [fnmatch] patterns, as [Path.glob] matches one path component *)

Module Fnmatch.

Inductive tok :=
| Star                                          (* [*] *)
| AnyChar                                       (* [?] *)
| Lit (c : ascii)
| Class (neg : bool) (items : list (ascii * ascii)).   (* [[...]], as ranges *)

(** The text up to the first closing bracket. *)
Fixpoint upto_close (s : string) : option string :=
  match s with
  | EmptyString => None
  | String c s' =>
      if Ascii.eqb c "]" then Some EmptyString
      else option_map (String c) (upto_close s')
  end.

(** The inside of a bracket expression that starts right after an
    opening bracket: a leading [!] and then a leading []] do not close
    it.  [None] when no bracket closes it. *)
Definition bracket_body (s : string) : option string :=
  match s with
  | String "!" (String "]" r) =>
      option_map (fun b => String "!" (String "]" b)) (upto_close r)
  | String "!" r => option_map (String "!") (upto_close r)
  | String "]" r => option_map (String "]") (upto_close r)
  | _ => upto_close s
  end.

(** The members of a bracket expression: [x-y] is a range when a [y]
    follows the hyphen, anything else stands for itself. *)
Fixpoint class_items (s : string) : list (ascii * ascii) :=
  match s with
  | EmptyString => []
  | String x t =>
      match t with
      | String h (String y r) =>
          if Ascii.eqb h "-" then (x, y) :: class_items r
          else (x, x) :: class_items t
      | _ => (x, x) :: class_items t
      end
  end.

Definition class_of (body : string) : tok :=
  match body with
  | String "!" b => Class true (class_items b)
  | _ => Class false (class_items body)
  end.

(** [fnmatch.translate], one character at a time; [skip] counts the
    characters of a bracket expression already consumed.  [Path.glob]
    hands it no pattern with two stars in a row (see [FS.glob]). *)
Fixpoint translate (skip : nat) (pat : string) : list tok :=
  match pat with
  | EmptyString => []
  | String c pat' =>
      match skip with
      | S k => translate k pat'
      | O =>
          if Ascii.eqb c "*" then Star :: translate O pat'
          else if Ascii.eqb c "?" then AnyChar :: translate O pat'
          else if Ascii.eqb c "[" then
            match bracket_body pat' with
            | Some body =>
                class_of body :: translate (S (String.length body)) pat'
            | None => Lit c :: translate O pat'
            end
          else Lit c :: translate O pat'
      end
  end.

Definition in_range (lo hi c : ascii) : bool :=
  ((Str.code lo <=? Str.code c) && (Str.code c <=? Str.code hi))%N.

(** A character against one member.  Under [re.IGNORECASE] the member
    holds the lower-case forms of its characters and the subject is
    lowered before the test. *)
Definition item_matches (cs : bool) (c : ascii) (it : ascii * ascii) : bool :=
  if cs then in_range (fst it) (snd it) c
  else in_range (fst it) (snd it) (Str.lower_char c)
       || in_range (fst it) (snd it) (Str.upper_char (Str.lower_char c)).

Definition char_matches (cs : bool) (c x : ascii) : bool :=
  if cs then Ascii.eqb c x
  else Ascii.eqb (Str.lower_char c) (Str.lower_char x).

Fixpoint matches (cs : bool) (ts : list tok) (s : string) : bool :=
  match ts with
  | [] => match s with EmptyString => true | _ => false end
  | Star :: ts' =>
      (fix star (s : string) : bool :=
         matches cs ts' s
         || match s with
            | EmptyString => false
            | String _ s' => star s'
            end) s
  | AnyChar :: ts' =>
      match s with
      | String _ s' => matches cs ts' s'
      | EmptyString => false
      end
  | Lit x :: ts' =>
      match s with
      | String c s' => char_matches cs c x && matches cs ts' s'
      | EmptyString => false
      end
  | Class neg items :: ts' =>
      match s with
      | String c s' =>
          xorb neg (existsb (item_matches cs c) items) && matches cs ts' s'
      | EmptyString => false
      end
  end.

(** Does the name match the pattern? *)
Definition fnmatch (case_sensitive : bool) (pat name : string) : bool :=
  matches case_sensitive (translate O pat) name.

End Fnmatch.

(** ** Exceptions *)

Inductive exn :=
| ValueError (about : Path)         (* "How does {path} have multiple RAW files?" *)
| InvalidPattern (pattern : string) (* the [ValueError] of [Path.glob] *)
| OutOfRange (timestamp : Z)        (* [datetime.fromtimestamp] outside the years 1..9999 *)
| OSError (about : Path).           (* [iterdir], [mkdir] or [rename] refused *)

Inductive result (A : Type) :=
| Ok (a : A)
| Raise (e : exn).
Arguments Ok {A} a.
Arguments Raise {A} e.

(** ** The file system *)

Module FS.

Inductive node :=
| File (mtime : Z)       (* a regular file and its [st_mtime], in microseconds *)
| Dir.

(** The entries below the root, each path once, in the order in which a
    directory enumerates them. *)
Definition t := list (Path * node).

Fixpoint lookup (fs : t) (p : Path) : option node :=
  match fs with
  | [] => None
  | (q, n) :: fs' => if PathOps.eqb q p then Some n else lookup fs' p
  end.

Definition is_root (p : Path) : bool :=
  match p with [] => true | _ => false end.

Definition is_dir (fs : t) (p : Path) : bool :=
  is_root p || match lookup fs p with Some Dir => true | _ => false end.

(** [Path.is_file]. *)
Definition is_file (fs : t) (p : Path) : bool :=
  match lookup fs p with Some (File _) => true | _ => false end.

(** [Path.exists]. *)
Definition exists_ (fs : t) (p : Path) : bool :=
  is_root p || match lookup fs p with Some _ => true | None => false end.

(** [Path.stat().st_mtime] of a regular file, the only entries [ingest]
    asks it of; [None] is the [FileNotFoundError] of a path that is not
    there. *)
Definition stat (fs : t) (p : Path) : option Z :=
  match lookup fs p with Some (File m) => Some m | _ => None end.

Definition remove (fs : t) (p : Path) : t :=
  filter (fun e => negb (PathOps.eqb (fst e) p)) fs.

Definition add (fs : t) (p : Path) (n : node) : t := (fs ++ [(p, n)])%list.

(** What [os.scandir] lists in a directory, at once; nothing for a path
    that is no directory. *)
Definition entries (fs : t) (d : Path) : list Path :=
  if is_dir fs d
  then filter (fun p => negb (is_root p) && PathOps.eqb (PathOps.parent p) d)
              (map fst fs)
  else [].

(** [Path.iterdir]: the entries of a directory; for anything else the
    [NotADirectoryError] or [FileNotFoundError] of [os.listdir]. *)
Definition iterdir (fs : t) (d : Path) : result (list Path) :=
  if is_dir fs d then Ok (entries fs d) else Raise (OSError d).

Fixpoint is_prefix (p q : Path) : bool :=
  match p, q with
  | [], _ => true
  | a :: p', b :: q' => String.eqb a b && is_prefix p' q'
  | _ :: _, [] => false
  end.

(** What the pattern [**] selects: the directory and every directory
    below it. *)
Definition directories_below (fs : t) (d : Path) : list Path :=
  d :: filter (fun q => is_prefix d q && negb (PathOps.eqb d q) && is_dir fs q)
              (map fst fs).

(** Two stars in a row. *)
Fixpoint has_double_star (pattern : string) : bool :=
  match pattern with
  | String a rest =>
      match rest with
      | String b _ => (Ascii.eqb a "*" && Ascii.eqb b "*") || has_double_star rest
      | EmptyString => false
      end
  | EmptyString => false
  end.

(** [Path.glob(pattern, case_sensitive=...)] for a pattern of one
    component, as Python 3.12 has it.  The pattern is looked at first:
    an empty one is unacceptable, [**] is the recursive wildcard, [..]
    is the parent, and two stars inside any other pattern are invalid.
    Then a path that is no directory selects nothing, and a directory
    selects its entries whose name matches, files and directories,
    hidden ones too. *)
Definition glob (fs : t) (d : Path) (pattern : string) (case_sensitive : bool)
  : result (list Path) :=
  if String.eqb pattern "" then Raise (InvalidPattern pattern)
  else if String.eqb pattern "**" then
    Ok (if is_dir fs d then directories_below fs d else [])
  else if String.eqb pattern ".." then
    Ok (if is_dir fs d then [(d ++ [".."])%list] else [])
  else if has_double_star pattern then Raise (InvalidPattern pattern)
  else
    Ok (filter (fun p => Fnmatch.fnmatch case_sensitive pattern (PathOps.name p))
               (entries fs d)).

(** The proper prefixes of a path and the path itself, shortest first,
    without the root. *)
Fixpoint prefixes (p : Path) : list Path :=
  match p with
  | [] => []
  | c :: p' => [c] :: map (cons c) (prefixes p')
  end.

Definition mkdir1 (fs : t) (p : Path) : t :=
  if exists_ fs p then fs else add fs p Dir.

(** A regular file is where the path or one of its parents should be. *)
Definition blocked (fs : t) (p : Path) : bool :=
  existsb (is_file fs) (prefixes p).

(** The file system with the path and its missing parents made
    directories. *)
Definition made (fs : t) (p : Path) : t := fold_left mkdir1 (prefixes p) fs.

(** [Path.mkdir(parents=True, exist_ok=True)]: with a regular file in
    the way the [FileExistsError] or [NotADirectoryError] of [os.mkdir]
    and nothing created. *)
Definition mkdir_p (fs : t) (p : Path) : result t :=
  if blocked fs p then Raise (OSError p) else Ok (made fs p).

(** [Path.rename] of a regular file, the only sources [ingest] gives
    it: the file at [src] replaces whatever regular file is at [dst].
    The operating system refuses when [dst] is a directory and when the
    directory of [dst] is missing or no directory; a source that is no
    regular file stands for a missing one, and has its
    [FileNotFoundError]. *)
Definition rename (src dst : Path) (fs : t) : result t :=
  match lookup fs src with
  | Some (File m) =>
      if is_dir fs dst || negb (is_dir fs (PathOps.parent dst))
      then Raise (OSError dst)
      else Ok (add (remove (remove fs src) dst) dst (File m))
  | _ => Raise (OSError src)
  end.

End FS.

(** ** The state the code runs in *)

(** The file system and the two [cached_property] slots of the
    importer. *)
Record state := mkstate {
  fs : FS.t;
  trash_cached : bool;
  confirm_trash_cached : bool
}.

Definition M (A : Type) := state -> state * result A.

Definition ret {A} (a : A) : M A := fun st => (st, Ok a).
Definition raise {A} (e : exn) : M A := fun st => (st, Raise e).
Definition bind {A B} (m : M A) (k : A -> M B) : M B :=
  fun st => match m st with
            | (st', Ok a) => k a st'
            | (st', Raise e) => (st', Raise e)
            end.
Definition read_fs : M FS.t := fun st => (st, Ok (fs st)).

(** The result of a library call that leaves the state alone. *)
Definition lift {A} (r : result A) : M A := fun st => (st, r).

(** A library call on the file system: its effect, or its exception and
    the file system as it was. *)
Definition try_fs (f : FS.t -> result FS.t) : M unit :=
  fun st => match f (fs st) with
            | Ok fs' =>
                (mkstate fs' (trash_cached st) (confirm_trash_cached st), Ok tt)
            | Raise e => (st, Raise e)
            end.

Notation "x <- m ;; k" := (bind m (fun x => k))
  (at level 61, m at next level, right associativity).

(** ** [class Importer] *)

Record Importer := mkImporter {
  library : Path;
  quarantine : Path;
  move : Path -> Path -> FS.t -> result FS.t;
  _newest_trusted_mtime : Z
}.

Definition three_days : Z := 3 * Date.us_per_day.

(** [Importer(library=..., quarantine=...)] at the instant [now]. *)
Definition Importer_new (library quarantine : Path) (now : Z) : Importer :=
  mkImporter library quarantine FS.rename (now - three_days).

(** [Importer.dry_run]. *)
Definition dry_run (library quarantine : Path) (now : Z) : Importer :=
  mkImporter library quarantine (fun source destination fs => Ok fs)
             (now - three_days).

(** [Importer.trash]: evaluated once, it creates the directory; when
    [mkdir] raises nothing is cached. *)
Definition trash (self : Importer) : M Path :=
  fun st =>
    let trash := quarantine self // "trash" in
    if trash_cached st then (st, Ok trash)
    else match FS.mkdir_p (fs st) trash with
         | Ok fs' => (mkstate fs' true (confirm_trash_cached st), Ok trash)
         | Raise e => (st, Raise e)
         end.

(** [Importer.confirm_trash]. *)
Definition confirm_trash (self : Importer) : M Path :=
  fun st =>
    let confirm_trash := quarantine self // "confirm/trash" in
    if confirm_trash_cached st then (st, Ok confirm_trash)
    else match FS.mkdir_p (fs st) confirm_trash with
         | Ok fs' => (mkstate fs' (trash_cached st) true, Ok confirm_trash)
         | Raise e => (st, Raise e)
         end.

(** [Importer._library_destination_for].  Only the [FileNotFoundError]
    of [stat] is caught; what [fromtimestamp] raises goes on to the
    caller. *)
Definition _library_destination_for (self : Importer) (fs : FS.t) (path : Path)
  : result Path :=
  let name := PathOps.name path in
  let parts := Str.split "_" name in
  if (List.length parts <? 2)%nat || negb (Str.isdigit (nth 1 parts "")) then
    match FS.stat fs path with
    | None => Ok (quarantine self // name)
    | Some st_mtime =>
        match Date.fromtimestamp st_mtime with
        | None => Raise (OutOfRange st_mtime)
        | Some dt =>
            if st_mtime >? _newest_trusted_mtime self
            then Ok (quarantine self // name)
            else Ok (library self // (Date.strftime_Ymd dt ++ "/" ++ name))
        end
    end
  else
    let date_part := nth 1 parts "" in
    match Date.strptime_Ymd date_part with
    | None => Ok (quarantine self // name)
    | Some dt => Ok (library self // (Date.strftime_Ymd dt ++ "/" ++ name))
    end.

Definition jpeg_suffix (suffix : string) : bool :=
  String.eqb (Str.lower suffix) ".jpg" || String.eqb (Str.lower suffix) ".jpeg".

(** The RAW-preference block of [_decide] ("Prefer RAW over JPEG if both
    exist"): [Some] is the path it returns, [None] is falling out of
    the block. *)
Definition prefer_raw (self : Importer) (path new_media : Path)
  : M (option Path) :=
  let name := PathOps.name path in
  if jpeg_suffix (PathOps.suffix path) then
    fs0 <- read_fs ;;
    glob <- lift (FS.glob fs0 new_media (PathOps.stem path ++ ".dng") false) ;;
    let raws := List.length glob in
    if (raws =? 1)%nat then t <- trash self ;; ret (Some (t // name))
    else if (1 <? raws)%nat then raise (ValueError path)
    else
      dest <- lift (_library_destination_for self fs0 path) ;;
      glob <- lift (FS.glob fs0 (PathOps.parent dest)
                            (PathOps.stem path ++ ".dng") false) ;;
      let raws := List.length glob in
      if (raws =? 1)%nat then t <- trash self ;; ret (Some (t // name))
      else if (1 <? raws)%nat then raise (ValueError path)
      else ret None
  else ret None.

(** The numbered-copy block of [_decide] ("Undocumented Pixel Camera
    behavior to make [~2.jpg] copies"). *)
Definition numbered_copy (self : Importer) (path new_media : Path)
  : M (option Path) :=
  let name := PathOps.name path in
  let stem := Str.rpartition_head "~" (PathOps.stem path) in
  let tilde := Str.rpartition_tail "~" (PathOps.stem path) in
  if Str.isdigit tilde then
    fs0 <- read_fs ;;
    let original := new_media // (stem ++ PathOps.suffix path) in
    if FS.exists_ fs0 original then t <- trash self ;; ret (Some (t // name))
    else
      maybe <- lift (_library_destination_for self fs0 path) ;;
      globs <- lift (FS.glob fs0 (PathOps.parent maybe) (stem ++ "*") false) ;;
      if (List.length globs =? 1)%nat then
        t <- trash self ;; ret (Some (t // name))
      else if negb (List.length globs =? 0)%nat then raise (ValueError path)
      else ret None
  else ret None.

(** [Importer._decide]. *)
Definition _decide (self : Importer) (path new_media : Path) : M Path :=
  let name := PathOps.name path in
  if Str.startswith "." name then
    let rest := Str.lstrip "." name in
    if String.eqb rest "DS_Store" then t <- trash self ;; ret (t // name)
    else c <- confirm_trash self ;; ret (c // rest)
  else
    r <- prefer_raw self path new_media ;;
    match r with
    | Some trashed => ret trashed
    | None =>
        r <- numbered_copy self path new_media ;;
        match r with
        | Some trashed => ret trashed
        | None =>
            fs0 <- read_fs ;;
            dest <- lift (_library_destination_for self fs0 path) ;;
            _ <- try_fs (fun fs => FS.mkdir_p fs (PathOps.parent dest)) ;;
            ret dest
        end
    end.

(** ** [class Mover] *)

Module Mover.

Record t := mk {
  _move : Path -> Path -> FS.t -> result FS.t;
  _journal : list (string * Path)
}.

(** [Mover.move]: the move, then the journal entry; a move that raises
    leaves no entry. *)
Definition move (self : t) (source destination : Path) : M t :=
  _ <- try_fs (_move self source destination) ;;
  ret (mk (_move self)
          (_journal self ++ [(PathOps.name source, destination)])%list).

(** [Mover.manifest]. *)
Definition manifest (self : t) : list (string * Path) := _journal self.

End Mover.

(** The body of the loop of [ingest], over the entries [iterdir] gave. *)
Fixpoint ingest_loop (self : Importer) (new_media : Path) (paths : list Path)
  (mover : Mover.t) : M Mover.t :=
  match paths with
  | [] => ret mover
  | path :: paths' =>
      fs0 <- read_fs ;;
      if negb (FS.is_file fs0 path) then
        ingest_loop self new_media paths' mover
      else
        dest <- _decide self path new_media ;;
        mover' <- Mover.move mover path dest ;;
        ingest_loop self new_media paths' mover'
  end.

(** [Importer.ingest]. *)
Definition ingest (self : Importer) (new_media : Path)
  : M (list (string * Path)) :=
  let mover := Mover.mk (move self) [] in
  fs0 <- read_fs ;;
  paths <- lift (FS.iterdir fs0 new_media) ;;
  mover' <- ingest_loop self new_media paths mover ;;
  ret (Mover.manifest mover').

(** ** Vocabulary of the statements *)

(** The two directories under the quarantine root. *)
Definition trash_dir (self : Importer) : Path := quarantine self // "trash".
Definition confirm_trash_dir (self : Importer) : Path :=
  quarantine self // "confirm/trash".

(** Reading [self.trash] raises nothing: it is cached, or no regular
    file is where the directory or one of its parents has to be. *)
Definition trash_ok (self : Importer) (st : state) : bool :=
  trash_cached st || negb (FS.blocked (fs st) (trash_dir self)).
Definition confirm_trash_ok (self : Importer) (st : state) : bool :=
  confirm_trash_cached st || negb (FS.blocked (fs st) (confirm_trash_dir self)).

(** The state after [self.trash] has been read. *)
Definition after_trash (self : Importer) (st : state) : state :=
  fst (trash self st).
Definition after_confirm_trash (self : Importer) (st : state) : state :=
  fst (confirm_trash self st).

(** The state with a directory and its missing parents made. *)
Definition with_directory (st : state) (d : Path) : state :=
  mkstate (FS.made (fs st) d) (trash_cached st) (confirm_trash_cached st).

(** [return self.trash / name]: the path under the trash, or what
    making the trash raises. *)
Definition trashed (self : Importer) (path : Path) (st : state)
  : state * result Path :=
  if trash_ok self st
  then (after_trash self st, Ok (trash_dir self // PathOps.name path))
  else (st, Raise (OSError (trash_dir self))).

(** [return self.confirm_trash / rest]. *)
Definition confirm_trashed (self : Importer) (path : Path) (st : state)
  : state * result Path :=
  if confirm_trash_ok self st
  then (after_confirm_trash self st,
        Ok (confirm_trash_dir self // Str.lstrip "." (PathOps.name path)))
  else (st, Raise (OSError (confirm_trash_dir self))).

(** The last three lines of [_decide]: the destination is computed, its
    directory made, and the destination returned. *)
Definition place (self : Importer) (path : Path) (st : state)
  : state * result Path :=
  match _library_destination_for self (fs st) path with
  | Raise e => (st, Raise e)
  | Ok dest =>
      if FS.blocked (fs st) (PathOps.parent dest)
      then (st, Raise (OSError (PathOps.parent dest)))
      else (with_directory st (PathOps.parent dest), Ok dest)
  end.

(** A duplicate block that returns: what it returns is a path. *)
Definition found (x : state * result Path) : state * result (option Path) :=
  (fst x, match snd x with Ok p => Ok (Some p) | Raise e => Raise e end).

(** The two globs of the duplicate blocks: for the RAW companion of a
    JPEG, and for the original of a numbered copy. *)
Definition raw_glob (fs : FS.t) (dir path : Path) : result (list Path) :=
  FS.glob fs dir (PathOps.stem path ++ ".dng") false.

(** The parts of the stem around its last tilde, and the path of the
    original of a numbered copy. *)
Definition copy_stem (path : Path) : string :=
  Str.rpartition_head "~" (PathOps.stem path).
Definition copy_number (path : Path) : string :=
  Str.rpartition_tail "~" (PathOps.stem path).
Definition original_of (path new_media : Path) : Path :=
  new_media // (copy_stem path ++ PathOps.suffix path).
Definition original_glob (fs : FS.t) (dir path : Path) : result (list Path) :=
  FS.glob fs dir (copy_stem path ++ "*") false.

(** The file name carries a date field: a second underscore-separated
    part made of digits. *)
Definition date_part (name : string) : option string :=
  let parts := Str.split "_" name in
  if (List.length parts <? 2)%nat || negb (Str.isdigit (nth 1 parts ""))
  then None else Some (nth 1 parts "").

(** Neither duplicate block of [_decide] fires: both fall through and
    leave the state as it is. *)
Definition unique (self : Importer) (path new_media : Path) (st : state) : Prop :=
  prefer_raw self path new_media st = (st, Ok None)
  /\ numbered_copy self path new_media st = (st, Ok None).

(** The destination of a dotfile as the specification words it: [.DS_Store]
    under [trash] with its name kept, any other [.X] under
    [confirm/trash] as [X], the one leading dot taken off. *)
Definition dotfile_destination_as_specified (self : Importer) (name : string)
  : option Path :=
  match name with
  | String "." x =>
      if String.eqb x "DS_Store" then Some (trash_dir self // name)
      else Some (confirm_trash_dir self // x)
  | _ => None
  end.

(** A stem that [fnmatch] reads character by character: no [*], no [?],
    no opening bracket. *)
Definition glob_literal (s : string) : bool :=
  Str.all_chars
    (fun c => negb (Ascii.eqb c "*" || Ascii.eqb c "?" || Ascii.eqb c "[")) s.

(** The name is that of a RAW companion as the specification words it:
    the same stem with the extension [.dng], letter case apart. *)
Definition same_stem_raw (path : Path) (n : string) : bool :=
  String.eqb (Str.lower n) (Str.lower (PathOps.stem path ++ ".dng")).

(** [fs'] is [fs] with, at most, new directories: every path holds what
    it held, or held nothing and is now a directory. *)
Definition grows (fs fs' : FS.t) : Prop :=
  forall q, FS.lookup fs' q = FS.lookup fs q
            \/ (FS.lookup fs q = None /\ FS.lookup fs' q = Some FS.Dir).

(** What [ingest] needs of a move function: when it returns, besides
    the source, regular files have stayed regular files, and directories
    have stayed directories. *)
Definition moves_only_source (mv : Path -> Path -> FS.t -> result FS.t) : Prop :=
  (forall src dst fs fs' q,
      mv src dst fs = Ok fs' -> q <> src -> FS.is_file fs q = true ->
      FS.is_file fs' q = true)
  /\ (forall src dst fs fs' q,
        mv src dst fs = Ok fs' -> FS.lookup fs q = Some FS.Dir ->
        FS.lookup fs' q = Some FS.Dir).

(** The entry is, in both file systems, a regular file, or in both a
    directory. *)
Definition kept (fs0 fs1 : FS.t) (q : Path) : Prop :=
  (FS.is_file fs0 q = true /\ FS.is_file fs1 q = true)
  \/ (FS.lookup fs0 q = Some FS.Dir /\ FS.lookup fs1 q = Some FS.Dir).

(** No path is listed twice. *)
Fixpoint distinct (l : list Path) : bool :=
  match l with
  | [] => true
  | p :: l' => negb (existsb (PathOps.eqb p) l') && distinct l'
  end.

(** A test holds on the [n] integers from [lo] on. *)
Fixpoint all_from (P : Z -> bool) (lo : Z) (n : nat) : bool :=
  match n with
  | O => true
  | S n' => P lo && all_from P (lo + 1) n'
  end.

(** A file no duplicate block looks at: no dotfile, no [.jpg]/[.jpeg],
    and nothing made of digits after the last tilde of its stem (or as
    its whole stem, when it has no tilde). *)
Definition plain (path : Path) : bool :=
  negb (Str.startswith "." (PathOps.name path))
  && negb (jpeg_suffix (PathOps.suffix path))
  && negb (Str.isdigit (copy_number path)).


(** What [re] lets through in a month or a day: a decimal digit or, in
    front of a one-digit day, a space. *)
Definition digit_or_space (c : ascii) : bool :=
  Str.is_decimal c || Ascii.eqb c " ".

(** A field of a formatted date: decimal digits, at least one. *)
Definition numeric_field (s : string) : Prop :=
  s <> "" /\ Str.all_chars Str.is_decimal s = true.



(** The run of the loop of [ingest] that comes to its end, one entry
    after the other: an entry that is no regular file is passed over;
    a regular file is decided in the state the entries before it left,
    moved where [_decide] said in the state [_decide] left, and
    journaled under its name with that destination. *)
Inductive journaled (self : Importer) (new_media : Path)
  : state -> list Path -> list (string * Path) -> state -> Prop :=
| journaled_end (st : state) : journaled self new_media st [] [] st
| journaled_skip (st st' : state) (path : Path) (paths : list Path)
    (records : list (string * Path)) :
    FS.is_file (fs st) path = false ->
    journaled self new_media st paths records st' ->
    journaled self new_media st (path :: paths) records st'
| journaled_move (st st1 st' : state) (path dest : Path) (fs2 : FS.t)
    (paths : list Path) (records : list (string * Path)) :
    FS.is_file (fs st) path = true ->
    _decide self path new_media st = (st1, Ok dest) ->
    move self path dest (fs st1) = Ok fs2 ->
    journaled self new_media
              (mkstate fs2 (trash_cached st1) (confirm_trash_cached st1))
              paths records st' ->
    journaled self new_media st (path :: paths)
              ((PathOps.name path, dest) :: records) st'.

(** A file whose decision cannot raise the integrity fault: a dotfile
    or a plain file. *)
Definition harmless (path : Path) : bool :=
  Str.startswith "." (PathOps.name path) || plain path.

(** A file whose destination can be read off its name: a dotfile, or a
    plain file with a date field. *)
Definition decided_by_name (path : Path) : bool :=
  Str.startswith "." (PathOps.name path)
  || (plain path
      && match date_part (PathOps.name path) with
         | Some _ => true
         | None => false
         end).

(** The destination of such a file, computed without a file system. *)
Definition destination_by_name (self : Importer) (path : Path) : Path :=
  let name := PathOps.name path in
  if Str.startswith "." name then
    if String.eqb (Str.lstrip "." name) "DS_Store" then trash_dir self // name
    else confirm_trash_dir self // Str.lstrip "." name
  else
    match _library_destination_for self [] path with
    | Ok dest => dest
    | Raise _ => quarantine self // name
    end.

(** The move function raises nothing but what the operating system
    raises. *)
Definition raises_os_errors (mv : Path -> Path -> FS.t -> result FS.t) : Prop :=
  forall src dst fs e, mv src dst fs = Raise e -> exists d, e = OSError d.

(** The superscripts two, three and one, which [str.isdigit] takes for
    digits and [re]'s [\d] does not. *)
Definition superscript (c : ascii) : bool :=
  ((Str.code c =? 178) || (Str.code c =? 179) || (Str.code c =? 185))%N.
Definition has_superscript (s : string) : bool :=
  negb (Str.all_chars (fun c => negb (superscript c)) s).

(** What [_decide] can raise: the integrity fault; the invalid pattern
    of one of the two globs; the time stamp [fromtimestamp] cannot
    hold; what [mkdir] raises for the trash, for [confirm/trash] or for
    the directory of the computed destination. *)
Definition raised_by_decide (self : Importer) (path : Path) (fs : FS.t)
  (e : exn) : Prop :=
  e = ValueError path
  \/ e = InvalidPattern (PathOps.stem path ++ ".dng")
  \/ e = InvalidPattern (copy_stem path ++ "*")
  \/ (exists mtime,
        FS.stat fs path = Some mtime /\ Date.fromtimestamp mtime = None
        /\ e = OutOfRange mtime)
  \/ e = OSError (trash_dir self)
  \/ e = OSError (confirm_trash_dir self)
  \/ (exists dest,
        _library_destination_for self fs path = Ok dest
        /\ e = OSError (PathOps.parent dest)).

Module Sample.

(** 2025-11-03 00:00 UTC and 2024-01-02 12:00 UTC, in microseconds. *)
Definition now : Z := 1762128000000000.
Definition jan_2_2024 : Z := 1704196800000000.

Definition lib : Path := ["t"; "library"].
Definition quar : Path := ["t"; "quarantine"].
Definition new : Path := ["t"; "new"].

Definition file (name : string) : Path := (new ++ [name])%list.

Definition importer : Importer := Importer_new lib quar now.
Definition dry : Importer := dry_run lib quar now.

(** A fresh importer over empty library and quarantine directories and
    a staging directory that holds the given files, in that order, all
    with the same modification time. *)
Definition staged (names : list string) (mtime : Z) : state :=
  mkstate
    ([(["t"], FS.Dir); (lib, FS.Dir); (quar, FS.Dir); (new, FS.Dir)]
     ++ map (fun n => (file n, FS.File mtime)) names)%list
    false false.

(** A staging directory that holds a directory and no file. *)
Definition no_files : state :=
  mkstate
    [(["t"], FS.Dir); (lib, FS.Dir); (quar, FS.Dir); (new, FS.Dir);
     (file "album", FS.Dir)]
    false false.

(** The library already holds the RAW file of a staged numbered copy
    ([test_tilde_jpeg_with_dng_already_in_library]). *)
Definition raw_in_library : state :=
  mkstate
    [(["t"], FS.Dir); (lib, FS.Dir); (quar, FS.Dir); (new, FS.Dir);
     ((lib ++ ["2024"])%list, FS.Dir); ((lib ++ ["2024"; "01"])%list, FS.Dir);
     ((lib ++ ["2024"; "01"; "01"])%list, FS.Dir);
     ((lib ++ ["2024"; "01"; "01"; "PXL_20240101_123456789.DNG"])%list,
      FS.File now);
     (file "PXL_20240101_123456789~2.JPG", FS.File now)]
    false false.

(** A staged file with an all-digit stem next to a quarantine that
    already holds one file. *)
Definition digits_beside_quarantined : state :=
  mkstate
    [(["t"], FS.Dir); (lib, FS.Dir); (quar, FS.Dir); (new, FS.Dir);
     ((quar ++ ["IMG_foo_bar.jpg"])%list, FS.File now);
     (file "12345678.mp4", FS.File now)]
    false false.

(** The library already holds the original of a staged numbered copy
    whose stem has a bracket. *)
Definition original_in_library : state :=
  mkstate
    [(["t"], FS.Dir); (lib, FS.Dir); (quar, FS.Dir); (new, FS.Dir);
     ((lib ++ ["2024"])%list, FS.Dir); ((lib ++ ["2024"; "01"])%list, FS.Dir);
     ((lib ++ ["2024"; "01"; "01"])%list, FS.Dir);
     ((lib ++ ["2024"; "01"; "01"; "x[1]_20240101_1.mp4"])%list, FS.File now);
     (file "x[1]_20240101_1~2.mp4", FS.File now)]
    false false.

(** The quarantine root already holds the RAW file of a staged JPEG
    whose stem has a bracket. *)
Definition raw_in_quarantine : state :=
  mkstate
    [(["t"], FS.Dir); (lib, FS.Dir); (quar, FS.Dir); (new, FS.Dir);
     ((quar ++ ["x[1].dng"])%list, FS.File now);
     (file "x[1].jpg", FS.File now)]
    false false.

(** A staged JPEG beside two RAW files of its stem. *)
Definition two_raws : state :=
  staged ["x.jpg"; "x.dng"; "X.DNG"] jan_2_2024.

(** A regular file is where the trash directory has to be, and
    [.DS_Store] is staged. *)
Definition trash_is_a_file : state :=
  mkstate
    [(["t"], FS.Dir); (lib, FS.Dir); (quar, FS.Dir); (new, FS.Dir);
     ((quar ++ ["trash"])%list, FS.File now);
     (file ".DS_Store", FS.File now)]
    false false.

End Sample.

(** * Properties *)

(** ** The model on the inputs of the test suite *)

Example strptime_pixel : Date.strptime_Ymd "20240101" = Some (Date.mkdate 2024 1 1).
Proof. reflexivity. Qed.
Example strptime_month13 : Date.strptime_Ymd "20231301" = None.
Proof. reflexivity. Qed.
Example strptime_short : Date.strptime_Ymd "202412" = Some (Date.mkdate 2024 1 2).
Proof. reflexivity. Qed.
Example strftime_ex : option_map Date.strftime_Ymd (Date.fromtimestamp 1704196800000000)
  = Some "2024/01/02".
Proof. vm_compute. reflexivity. Qed.
Example suffix_ex : PathOps.suffix ["a"; "PXL_1.RAW-02.ORIGINAL.dng"] = ".dng"
  /\ PathOps.stem ["a"; ".hidden"] = ".hidden" /\ PathOps.stem ["x.tar.gz"] = "x.tar"
  /\ Str.rpartition_tail "~" "12345678" = "12345678"
  /\ Str.rpartition_head "~" "a~b~3" = "a~b".
Proof. repeat split; reflexivity. Qed.
Example fnmatch_ex :
  Fnmatch.fnmatch false "PXL_1.dng" "pxl_1.DNG" = true
  /\ Fnmatch.fnmatch false "x[1].dng" "x[1].dng" = false
  /\ Fnmatch.fnmatch false "x[1].dng" "X1.dng" = true
  /\ Fnmatch.fnmatch false "a[!]b]*" "acz" = true
  /\ Fnmatch.fnmatch false "a[!]b]*" "abz" = false
  /\ Fnmatch.fnmatch false "a[b" "A[B" = true
  /\ Fnmatch.fnmatch false "[a-c]?" "B." = true
  /\ Fnmatch.fnmatch false "*" "" = true.
Proof. repeat split; reflexivity. Qed.

Example test_multiple_duplicates :
  snd (ingest Sample.importer Sample.new
         (Sample.staged
            ["PXL_20240101_123456789.DNG"; "PXL_20240101_123456789.JPG";
             "PXL_20240101_123456789~2.JPG"; "PXL_20240101_123456789~3.JPG"]
            Sample.now))
  = Ok [("PXL_20240101_123456789.DNG",
         ["t"; "library"; "2024"; "01"; "01"; "PXL_20240101_123456789.DNG"]);
        ("PXL_20240101_123456789.JPG",
         ["t"; "quarantine"; "trash"; "PXL_20240101_123456789.JPG"]);
        ("PXL_20240101_123456789~2.JPG",
         ["t"; "quarantine"; "trash"; "PXL_20240101_123456789~2.JPG"]);
        ("PXL_20240101_123456789~3.JPG",
         ["t"; "quarantine"; "trash"; "PXL_20240101_123456789~3.JPG"])].
Proof. vm_compute. reflexivity. Qed.

Example test_quarantine_no_date_info :
  snd (ingest Sample.importer Sample.new
         (Sample.staged ["12345678.jpg"; "IMG_foo_bar.jpg"] Sample.now))
  = Ok [("12345678.jpg", ["t"; "quarantine"; "12345678.jpg"]);
        ("IMG_foo_bar.jpg", ["t"; "quarantine"; "IMG_foo_bar.jpg"])].
Proof. vm_compute. reflexivity. Qed.

Example test_trashes_junk :
  snd (ingest Sample.importer Sample.new
         (Sample.staged [".DS_Store"; "PXL_20240101_123456789.JPG"] Sample.now))
  = Ok [(".DS_Store", ["t"; "quarantine"; "trash"; ".DS_Store"]);
        ("PXL_20240101_123456789.JPG",
         ["t"; "library"; "2024"; "01"; "01"; "PXL_20240101_123456789.JPG"])].
Proof. vm_compute. reflexivity. Qed.

Example test_quarantine_mtime_too_recent :
  snd (ingest Sample.importer Sample.new
         (Sample.staged ["DSC_recent.JPG"] (Sample.now - Date.us_per_day)))
  = Ok [("DSC_recent.JPG", ["t"; "quarantine"; "DSC_recent.JPG"])].
Proof. vm_compute. reflexivity. Qed.

Example test_tilde_jpeg_with_dng_already_in_library :
  snd (ingest Sample.importer Sample.new Sample.raw_in_library)
  = Ok [("PXL_20240101_123456789~2.JPG",
         ["t"; "quarantine"; "trash"; "PXL_20240101_123456789~2.JPG"])].
Proof. vm_compute. reflexivity. Qed.

Example test_dry_run :
  let st := Sample.staged
              ["PXL_20240101_123456789.DNG"; "PXL_20240101_123456789.JPG";
               ".DS_Store"; "IMG_foo_bar.jpg"; "PXL_20240101_999999999.JPG";
               "PXL_20240101_999999999~2.JPG"; "PXL_20240102_111111111.MP4"]
              Sample.now in
  snd (ingest Sample.dry Sample.new st)
  = snd (ingest Sample.importer Sample.new st).
Proof. vm_compute. reflexivity. Qed.

(** ** Strings and paths *)

Lemma path_eqb_eq (p q : Path) : PathOps.eqb p q = true <-> p = q.
Proof.
  revert q; induction p as [|a p IH]; intros [|b q]; simpl;
    try (split; [discriminate | congruence]); try tauto.
  rewrite andb_true_iff, String.eqb_eq, IH. split.
  - intros [-> ->]; reflexivity.
  - intros E; injection E; auto.
Qed.

Lemma path_eqb_refl (p : Path) : PathOps.eqb p p = true.
Proof. apply path_eqb_eq; reflexivity. Qed.

Lemma path_eqb_neq (p q : Path) : PathOps.eqb p q = false <-> p <> q.
Proof.
  rewrite <- path_eqb_eq. destruct (PathOps.eqb p q); split; congruence.
Qed.

Lemma path_eqb_sym (p q : Path) : PathOps.eqb p q = PathOps.eqb q p.
Proof.
  destruct (PathOps.eqb p q) eqn:E.
  - apply path_eqb_eq in E. subst. symmetry. apply path_eqb_refl.
  - symmetry. apply path_eqb_neq. apply path_eqb_neq in E. congruence.
Qed.

Lemma contains_cons (c a : ascii) (s : string) :
  Str.contains c (String a s) = Ascii.eqb a c || Str.contains c s.
Proof.
  unfold Str.contains; simpl. destruct (Ascii.eqb a c); reflexivity.
Qed.

Lemma contains_app (c : ascii) (a b : string) :
  Str.contains c (a ++ b) = Str.contains c a || Str.contains c b.
Proof.
  induction a as [|x a IH]; simpl; [reflexivity|].
  rewrite !contains_cons, IH, orb_assoc; reflexivity.
Qed.

Lemma split_no_sep (sep : ascii) (s : string) :
  Str.contains sep s = false -> Str.split sep s = [s].
Proof.
  induction s as [|a s IH]; simpl; intros H; [reflexivity|].
  rewrite contains_cons in H. apply orb_false_iff in H as [Ha Hs].
  rewrite Ha, (IH Hs). reflexivity.
Qed.

Lemma split_app_sep (sep : ascii) (a b : string) :
  Str.contains sep a = false ->
  Str.split sep (a ++ String sep b) = a :: Str.split sep b.
Proof.
  induction a as [|x a IH]; simpl; intros H.
  - rewrite Ascii.eqb_refl; reflexivity.
  - rewrite contains_cons in H. apply orb_false_iff in H as [Hx Ha].
    rewrite Hx, (IH Ha). reflexivity.
Qed.

Lemma entry_name_spec (n : string) :
  entry_name n = true ->
  n <> "" /\ n <> "." /\ Str.contains "/" n = false.
Proof.
  unfold entry_name. rewrite !andb_true_iff, !negb_true_iff.
  intros [[[H1 H2] _] H4]. repeat split; auto.
  - intros ->; discriminate.
  - intros ->; discriminate.
Qed.

Lemma startswith_contains (c : ascii) (s : string) :
  Str.contains c s = false -> Str.startswith c s = false.
Proof.
  destruct s as [|a s]; simpl; [reflexivity|].
  rewrite contains_cons. intros H; apply orb_false_iff in H; tauto.
Qed.

(** Joining a directory entry's name appends one component. *)
Lemma joinpath_entry (p : Path) (n : string) :
  entry_name n = true -> p // n = (p ++ [n])%list.
Proof.
  intros H. destruct (entry_name_spec n H) as (H1 & H2 & H3).
  unfold PathOps.joinpath, PathOps.segments.
  rewrite (startswith_contains _ _ H3), (split_no_sep _ _ H3). simpl.
  apply String.eqb_neq in H1, H2. rewrite H1, H2. reflexivity.
Qed.

Lemma name_app (p : Path) (n : string) : PathOps.name (p ++ [n])%list = n.
Proof. unfold PathOps.name. apply last_last. Qed.


(** ** Formatted dates *)

Lemma digit_is_decimal (n : Z) : Str.is_decimal (Date.digit n) = true.
Proof.
  unfold Date.digit.
  assert (H : 0 <= n mod 10 < 10) by (apply Z.mod_pos_bound; lia).
  assert (E : n mod 10 = 0 \/ n mod 10 = 1 \/ n mod 10 = 2 \/ n mod 10 = 3
              \/ n mod 10 = 4 \/ n mod 10 = 5 \/ n mod 10 = 6
              \/ n mod 10 = 7 \/ n mod 10 = 8 \/ n mod 10 = 9) by lia.
  repeat (destruct E as [E|E]; [rewrite E; reflexivity|]).
  rewrite E; reflexivity.
Qed.

Lemma append_assoc (a b c : string) : (a ++ b) ++ c = a ++ (b ++ c).
Proof. induction a as [|x a IH]; simpl; [reflexivity | rewrite IH; reflexivity]. Qed.


Lemma all_chars_app (f : ascii -> bool) (a b : string) :
  Str.all_chars f (a ++ b) = Str.all_chars f a && Str.all_chars f b.
Proof.
  induction a as [|x a IH]; simpl; [reflexivity|].
  rewrite IH, andb_assoc; reflexivity.
Qed.

Lemma digits_decimal (fuel : nat) (n : Z) (acc : string) :
  Str.all_chars Str.is_decimal acc = true ->
  Str.all_chars Str.is_decimal (Date.digits fuel n acc) = true.
Proof.
  revert n acc; induction fuel as [|f IH]; intros n acc H; simpl; [exact H|].
  destruct (n <? 10).
  - simpl. rewrite digit_is_decimal, H; reflexivity.
  - apply IH. simpl. rewrite digit_is_decimal, H; reflexivity.
Qed.

Lemma digits_nonempty (fuel : nat) (n : Z) (acc : string) :
  Date.digits (S fuel) n acc <> "".
Proof.
  revert n acc; induction fuel as [|f IH]; intros n acc; simpl.
  - destruct (n <? 10); discriminate.
  - destruct (n <? 10); [discriminate|]. apply (IH (n / 10)).
Qed.

Lemma zeros_decimal (k : nat) : Str.all_chars Str.is_decimal (Date.zeros k) = true.
Proof. induction k; simpl; auto. Qed.

Lemma zfill_numeric (w : nat) (n : Z) : numeric_field (Date.zfill w (Date.decimal n)).
Proof.
  unfold numeric_field, Date.zfill, Date.decimal. split.
  - intros E. destruct (Date.zeros _); [|discriminate].
    simpl in E. exact (digits_nonempty _ _ _ E).
  - rewrite all_chars_app, zeros_decimal. apply digits_decimal. reflexivity.
Qed.

Lemma decimal_numeric (n : Z) : numeric_field (Date.decimal n).
Proof. exact (zfill_numeric 0 n). Qed.

Lemma numeric_no_char (c : ascii) (s : string) :
  Str.is_decimal c = false ->
  Str.all_chars Str.is_decimal s = true -> Str.contains c s = false.
Proof.
  intros Hc. induction s as [|a s IH]; simpl; intros H; [reflexivity|].
  apply andb_true_iff in H as [Ha Hs]. rewrite contains_cons, (IH Hs).
  destruct (Ascii.eqb_spec a c) as [->|]; [congruence | reflexivity].
Qed.

Lemma numeric_segment (s : string) :
  numeric_field s ->
  Str.contains "/" s = false /\ String.eqb s "" = false /\ String.eqb s "." = false.
Proof.
  intros [Hne Hd]. repeat split.
  - apply numeric_no_char; [reflexivity | exact Hd].
  - apply String.eqb_neq; exact Hne.
  - apply String.eqb_neq. intros ->. discriminate.
Qed.

(** A directory joined with three numeric fields and an entry name,
    written with slashes, is four components deeper. *)
Lemma joinpath_dated (p : Path) (y m d n : string) :
  numeric_field y -> numeric_field m -> numeric_field d ->
  entry_name n = true ->
  p // ((y ++ "/" ++ m ++ "/" ++ d) ++ "/" ++ n) = (p ++ [y; m; d; n])%list.
Proof.
  intros Hy Hm Hd Hn.
  destruct (numeric_segment y Hy) as (Y1 & Y2 & Y3).
  destruct (numeric_segment m Hm) as (M1 & M2 & M3).
  destruct (numeric_segment d Hd) as (D1 & D2 & D3).
  destruct (entry_name_spec n Hn) as (N1 & N2 & N3).
  apply String.eqb_neq in N1, N2.
  assert (E : (y ++ "/" ++ m ++ "/" ++ d) ++ "/" ++ n
              = y ++ String "/" (m ++ String "/" (d ++ String "/" n))).
  { rewrite !append_assoc. reflexivity. }
  rewrite E. unfold PathOps.joinpath, PathOps.segments.
  assert (S0 : Str.startswith "/" (y ++ String "/" (m ++ String "/" (d ++ String "/" n))) = false).
  { destruct Hy as [Hy0 Hy1]. destruct y as [|a y]; [congruence|]. simpl.
    simpl in Hy1. apply andb_true_iff in Hy1 as [Ha _].
    destruct (Ascii.eqb_spec a "/") as [->|]; [discriminate | reflexivity]. }
  rewrite S0, !split_app_sep, (split_no_sep _ _ N3) by assumption.
  simpl. rewrite Y2, Y3, M2, M3, D2, D3, N1, N2. reflexivity.
Qed.

Lemma strftime_join (p : Path) (dt : Date.date) (n : string) :
  entry_name n = true ->
  p // (Date.strftime_Ymd dt ++ "/" ++ n)
  = (p ++ [Date.fmt_Y dt; Date.fmt_m dt; Date.fmt_d dt; n])%list.
Proof.
  intros Hn. unfold Date.strftime_Ymd.
  apply joinpath_dated; auto;
    [apply decimal_numeric | apply zfill_numeric | apply zfill_numeric].
Qed.

(** ** The blocks of [_decide] *)


Lemma confirm_trash_dir_eq (self : Importer) :
  confirm_trash_dir self = (quarantine self ++ ["confirm"; "trash"])%list.
Proof. reflexivity. Qed.

Lemma after_trash_eq (self : Importer) (st : state) :
  after_trash self st
  = (if trash_cached st then st
     else if FS.blocked (fs st) (quarantine self ++ ["trash"])%list then st
     else mkstate (FS.made (fs st) (quarantine self ++ ["trash"])%list)
                  true (confirm_trash_cached st)).
Proof.
  unfold after_trash, trash, FS.mkdir_p. change (quarantine self // "trash")
    with (quarantine self ++ ["trash"])%list.
  destruct (trash_cached st); [reflexivity|].
  destruct (FS.blocked _ _); reflexivity.
Qed.

Lemma after_confirm_trash_eq (self : Importer) (st : state) :
  after_confirm_trash self st
  = (if confirm_trash_cached st then st
     else if FS.blocked (fs st) (quarantine self ++ ["confirm"; "trash"])%list
          then st
          else mkstate
                 (FS.made (fs st) (quarantine self ++ ["confirm"; "trash"])%list)
                 (trash_cached st) true).
Proof.
  unfold after_confirm_trash, confirm_trash, FS.mkdir_p.
  change (quarantine self // "confirm/trash")
    with (quarantine self ++ ["confirm"; "trash"])%list.
  destruct (confirm_trash_cached st); [reflexivity|].
  destruct (FS.blocked _ _); reflexivity.
Qed.

Lemma trash_eq (self : Importer) (st : state) :
  trash self st
  = if trash_ok self st then (after_trash self st, Ok (trash_dir self))
    else (st, Raise (OSError (trash_dir self))).
Proof.
  unfold trash_ok, after_trash, trash, trash_dir, FS.mkdir_p.
  destruct (trash_cached st); [reflexivity|]. cbn [orb].
  destruct (FS.blocked _ _); reflexivity.
Qed.

Lemma confirm_trash_eq (self : Importer) (st : state) :
  confirm_trash self st
  = if confirm_trash_ok self st
    then (after_confirm_trash self st, Ok (confirm_trash_dir self))
    else (st, Raise (OSError (confirm_trash_dir self))).
Proof.
  unfold confirm_trash_ok, after_confirm_trash, confirm_trash,
    confirm_trash_dir, FS.mkdir_p.
  destruct (confirm_trash_cached st); [reflexivity|]. cbn [orb].
  destruct (FS.blocked _ _); reflexivity.
Qed.

(** [return self.trash / name] in the monad. *)
Lemma return_trash (self : Importer) (path : Path) (st : state) :
  (t <- trash self ;; ret (t // PathOps.name path)) st = trashed self path st.
Proof.
  unfold bind, ret, trashed. rewrite trash_eq.
  destruct (trash_ok self st); reflexivity.
Qed.

Lemma return_some_trash (self : Importer) (path : Path) (st : state) :
  (t <- trash self ;; ret (Some (t // PathOps.name path))) st
  = found (trashed self path st).
Proof.
  unfold bind, ret, trashed, found. rewrite trash_eq.
  destruct (trash_ok self st); reflexivity.
Qed.

Lemma return_confirm_trash (self : Importer) (path : Path) (st : state) :
  (c <- confirm_trash self ;; ret (c // Str.lstrip "." (PathOps.name path))) st
  = confirm_trashed self path st.
Proof.
  unfold bind, ret, confirm_trashed. rewrite confirm_trash_eq.
  destruct (confirm_trash_ok self st); reflexivity.
Qed.

(** Raising leaves the state alone; returning leaves it after [trash]
    was read. *)
Lemma trashed_cases (self : Importer) (path : Path) (st : state) :
  trashed self path st
  = (after_trash self st, Ok (trash_dir self // PathOps.name path))
  \/ trashed self path st = (st, Raise (OSError (trash_dir self))).
Proof. unfold trashed. destruct (trash_ok self st); auto. Qed.

Lemma confirm_trashed_cases (self : Importer) (path : Path) (st : state) :
  confirm_trashed self path st
  = (after_confirm_trash self st,
     Ok (confirm_trash_dir self // Str.lstrip "." (PathOps.name path)))
  \/ confirm_trashed self path st
     = (st, Raise (OSError (confirm_trash_dir self))).
Proof. unfold confirm_trashed. destruct (confirm_trash_ok self st); auto. Qed.

Lemma library_destination_cases (self : Importer) (fs : FS.t) (path : Path) :
  _library_destination_for self fs path =
  match date_part (PathOps.name path) with
  | None =>
      match FS.stat fs path with
      | None => Ok (quarantine self // PathOps.name path)
      | Some mtime =>
          match Date.fromtimestamp mtime with
          | None => Raise (OutOfRange mtime)
          | Some dt =>
              if mtime >? _newest_trusted_mtime self
              then Ok (quarantine self // PathOps.name path)
              else Ok (library self
                       // (Date.strftime_Ymd dt ++ "/" ++ PathOps.name path))
          end
      end
  | Some digits =>
      match Date.strptime_Ymd digits with
      | None => Ok (quarantine self // PathOps.name path)
      | Some dt =>
          Ok (library self // (Date.strftime_Ymd dt ++ "/" ++ PathOps.name path))
      end
  end.
Proof.
  unfold _library_destination_for, date_part.
  destruct ((List.length _ <? 2)%nat || _); reflexivity.
Qed.

(** The RAW-preference block, by what its two globs find. *)
Lemma prefer_raw_eq (self : Importer) (path new_media : Path) (st : state) :
  prefer_raw self path new_media st =
  if jpeg_suffix (PathOps.suffix path) then
    match raw_glob (fs st) new_media path with
    | Raise e => (st, Raise e)
    | Ok staged =>
        if (List.length staged =? 1)%nat then found (trashed self path st)
        else if (1 <? List.length staged)%nat then (st, Raise (ValueError path))
        else
          match _library_destination_for self (fs st) path with
          | Raise e => (st, Raise e)
          | Ok dest =>
              match raw_glob (fs st) (PathOps.parent dest) path with
              | Raise e => (st, Raise e)
              | Ok stored =>
                  if (List.length stored =? 1)%nat
                  then found (trashed self path st)
                  else if (1 <? List.length stored)%nat
                       then (st, Raise (ValueError path))
                       else (st, Ok None)
              end
          end
    end
  else (st, Ok None).
Proof.
  unfold prefer_raw, raw_glob.
  destruct (jpeg_suffix _); [|reflexivity].
  unfold bind at 1, read_fs. unfold bind at 1, lift.
  destruct (FS.glob _ _ _ _) as [staged|e]; [|reflexivity].
  destruct (_ =? 1)%nat; [apply return_some_trash|].
  destruct (1 <? _)%nat; [reflexivity|].
  unfold bind at 1.
  destruct (_library_destination_for _ _ _) as [dest|e]; [|reflexivity].
  unfold bind at 1.
  destruct (FS.glob _ _ _ _) as [stored|e]; [|reflexivity].
  destruct (_ =? 1)%nat; [apply return_some_trash|].
  destruct (1 <? _)%nat; reflexivity.
Qed.

(** The numbered-copy block, by the test for the original and what the
    glob finds. *)
Lemma numbered_copy_eq (self : Importer) (path new_media : Path) (st : state) :
  numbered_copy self path new_media st =
  if Str.isdigit (copy_number path) then
    if FS.exists_ (fs st) (original_of path new_media)
    then found (trashed self path st)
    else
      match _library_destination_for self (fs st) path with
      | Raise e => (st, Raise e)
      | Ok maybe =>
          match original_glob (fs st) (PathOps.parent maybe) path with
          | Raise e => (st, Raise e)
          | Ok globs =>
              if (List.length globs =? 1)%nat then found (trashed self path st)
              else if negb (List.length globs =? 0)%nat
                   then (st, Raise (ValueError path))
                   else (st, Ok None)
          end
      end
  else (st, Ok None).
Proof.
  unfold numbered_copy, original_glob, original_of, copy_number, copy_stem.
  destruct (Str.isdigit _); [|reflexivity].
  unfold bind at 1, read_fs.
  destruct (FS.exists_ _ _); [apply return_some_trash|].
  unfold bind at 1, lift.
  destruct (_library_destination_for _ _ _) as [maybe|e]; [|reflexivity].
  unfold bind at 1.
  destruct (FS.glob _ _ _ _) as [globs|e]; [|reflexivity].
  destruct (_ =? 1)%nat; [apply return_some_trash|].
  destruct (negb _); reflexivity.
Qed.

Lemma place_eq (self : Importer) (path : Path) (st : state) :
  (fs0 <- read_fs ;;
   dest <- lift (_library_destination_for self fs0 path) ;;
   _ <- try_fs (fun fs => FS.mkdir_p fs (PathOps.parent dest)) ;;
   ret dest) st
  = place self path st.
Proof.
  unfold place, bind, read_fs, lift, try_fs, ret, with_directory, FS.mkdir_p.
  destruct (_library_destination_for _ _ _) as [dest|e]; [|reflexivity].
  destruct (FS.blocked _ _); reflexivity.
Qed.

(** [_decide], block by block. *)
Lemma decide_eq (self : Importer) (path new_media : Path) (st : state) :
  _decide self path new_media st =
  if Str.startswith "." (PathOps.name path) then
    if String.eqb (Str.lstrip "." (PathOps.name path)) "DS_Store"
    then trashed self path st
    else confirm_trashed self path st
  else
    match prefer_raw self path new_media st with
    | (st1, Ok (Some trashed)) => (st1, Ok trashed)
    | (st1, Raise e) => (st1, Raise e)
    | (st1, Ok None) =>
        match numbered_copy self path new_media st1 with
        | (st2, Ok (Some trashed)) => (st2, Ok trashed)
        | (st2, Raise e) => (st2, Raise e)
        | (st2, Ok None) => place self path st2
        end
    end.
Proof.
  unfold _decide. destruct (Str.startswith _ _).
  - destruct (String.eqb _ _).
    + apply return_trash.
    + apply return_confirm_trash.
  - unfold bind at 1.
    destruct (prefer_raw self path new_media st) as [st1 [[d|]|e]];
      try reflexivity.
    unfold bind at 1.
    destruct (numbered_copy self path new_media st1) as [st2 [[d|]|e]];
      try reflexivity.
    apply place_eq.
Qed.

(** A block falls through, returns the trash path or raises; only
    returning touches the state. *)
Lemma prefer_raw_outcomes (self : Importer) (path new_media : Path) (st : state) :
  prefer_raw self path new_media st = found (trashed self path st)
  \/ (exists e, prefer_raw self path new_media st = (st, Raise e))
  \/ prefer_raw self path new_media st = (st, Ok None).
Proof.
  rewrite prefer_raw_eq.
  destruct (jpeg_suffix _); [|auto].
  destruct (raw_glob _ _ _) as [staged|e]; [|eauto].
  destruct (_ =? 1)%nat; [auto|]. destruct (1 <? _)%nat; [eauto|].
  destruct (_library_destination_for _ _ _) as [dest|e]; [|eauto].
  destruct (raw_glob _ _ _) as [stored|e]; [|eauto].
  destruct (_ =? 1)%nat; [auto|]. destruct (1 <? _)%nat; eauto.
Qed.

Lemma numbered_copy_outcomes (self : Importer) (path new_media : Path) (st : state) :
  numbered_copy self path new_media st = found (trashed self path st)
  \/ (exists e, numbered_copy self path new_media st = (st, Raise e))
  \/ numbered_copy self path new_media st = (st, Ok None).
Proof.
  rewrite numbered_copy_eq.
  destruct (Str.isdigit _); [|auto].
  destruct (FS.exists_ _ _); [auto|].
  destruct (_library_destination_for _ _ _) as [maybe|e]; [|eauto].
  destruct (original_glob _ _ _) as [globs|e]; [|eauto].
  destruct (_ =? 1)%nat; [auto|]. destruct (negb _); eauto.
Qed.

(** A file that is no dotfile is trashed as a duplicate, stops the run
    with an exception, or is unique and goes to its computed
    destination. *)
Lemma decide_outcomes (self : Importer) (path new_media : Path) (st : state) :
  Str.startswith "." (PathOps.name path) = false ->
  _decide self path new_media st = trashed self path st
  \/ (exists e, _decide self path new_media st = (st, Raise e))
  \/ (unique self path new_media st
      /\ _decide self path new_media st = place self path st).
Proof.
  intros Hdot. rewrite decide_eq, Hdot. unfold unique.
  destruct (prefer_raw_outcomes self path new_media st) as [E|[[e E]|E]];
    rewrite E; eauto.
  { left. unfold found, trashed. destruct (trash_ok self st); reflexivity. }
  destruct (numbered_copy_outcomes self path new_media st) as [E'|[[e E']|E']];
    rewrite E'; eauto.
  left. unfold found, trashed. destruct (trash_ok self st); reflexivity.
Qed.

Lemma decide_unique (self : Importer) (path new_media : Path) (st : state) :
  Str.startswith "." (PathOps.name path) = false ->
  unique self path new_media st ->
  _decide self path new_media st = place self path st.
Proof.
  intros Hdot [E1 E2]. rewrite decide_eq, Hdot, E1, E2. reflexivity.
Qed.

Lemma dated_destination (self : Importer) (fs : FS.t) (path : Path)
  (digits : string) (dt : Date.date) :
  entry_name (PathOps.name path) = true ->
  date_part (PathOps.name path) = Some digits ->
  Date.strptime_Ymd digits = Some dt ->
  _library_destination_for self fs path
  = Ok (library self
        ++ [Date.fmt_Y dt; Date.fmt_m dt; Date.fmt_d dt; PathOps.name path])%list.
Proof.
  intros Hn Hd Hp. rewrite library_destination_cases, Hd, Hp.
  rewrite strftime_join by exact Hn. reflexivity.
Qed.

(** The one exception of computing the destination. *)
Lemma library_destination_raise (self : Importer) (fs : FS.t) (path : Path)
  (e : exn) :
  _library_destination_for self fs path = Raise e ->
  exists mtime, FS.stat fs path = Some mtime
                /\ Date.fromtimestamp mtime = None /\ e = OutOfRange mtime.
Proof.
  rewrite library_destination_cases.
  destruct (date_part (PathOps.name path)) as [digits|].
  - destruct (Date.strptime_Ymd digits); discriminate.
  - destruct (FS.stat fs path) as [m|]; [|discriminate].
    destruct (Date.fromtimestamp m) as [dt|] eqn:F.
    + destruct (m >? _); discriminate.
    + intros E; injection E as <-. eauto.
Qed.

Lemma glob_raise (fs : FS.t) (d : Path) (pattern : string) (cs : bool) (e : exn) :
  FS.glob fs d pattern cs = Raise e -> e = InvalidPattern pattern.
Proof.
  unfold FS.glob. destruct (String.eqb pattern ""); [congruence|].
  destruct (String.eqb pattern "**"); [discriminate|].
  destruct (String.eqb pattern ".."); [discriminate|].
  destruct (FS.has_double_star pattern); [congruence | discriminate].
Qed.

Lemma found_trashed_raise (self : Importer) (path : Path) (st st' : state)
  (e : exn) :
  found (trashed self path st) = (st', Raise e) -> e = OSError (trash_dir self).
Proof.
  unfold found, trashed. destruct (trash_ok self st); [discriminate|].
  cbn [fst snd]. congruence.
Qed.

Ltac raised_tac :=
  unfold raised_by_decide;
  match goal with
  | H : found (trashed _ _ _) = (_, Raise _) |- _ =>
      apply found_trashed_raise in H; subst; tauto
  | H : (_, Raise _) = (_, Raise _) |- _ => injection H as _ <-
  | _ => idtac
  end.

Lemma prefer_raw_raise (self : Importer) (path new_media : Path)
  (st st' : state) (e : exn) :
  prefer_raw self path new_media st = (st', Raise e) ->
  raised_by_decide self path (fs st) e.
Proof.
  rewrite prefer_raw_eq. destruct (jpeg_suffix _); [|discriminate].
  unfold raw_glob.
  destruct (FS.glob (fs st) new_media _ false) as [staged|e1] eqn:G1.
  - destruct (_ =? 1)%nat; [intros H; raised_tac|].
    destruct (1 <? _)%nat; [intros H; raised_tac; tauto|].
    destruct (_library_destination_for self (fs st) path) as [dest|e2] eqn:D.
    + destruct (FS.glob (fs st) (PathOps.parent dest) _ false) as [stored|e3] eqn:G2.
      * destruct (_ =? 1)%nat; [intros H; raised_tac|].
        destruct (1 <? _)%nat; [intros H; raised_tac; tauto | discriminate].
      * intros H; raised_tac. apply glob_raise in G2. tauto.
    + intros H; raised_tac.
      destruct (library_destination_raise _ _ _ _ D) as (m & S & F & ->).
      right. right. right. left. eauto.
  - intros H; raised_tac. apply glob_raise in G1. tauto.
Qed.

Lemma numbered_copy_raise (self : Importer) (path new_media : Path)
  (st st' : state) (e : exn) :
  numbered_copy self path new_media st = (st', Raise e) ->
  raised_by_decide self path (fs st) e.
Proof.
  rewrite numbered_copy_eq. destruct (Str.isdigit _); [|discriminate].
  destruct (FS.exists_ _ _); [intros H; raised_tac|].
  unfold original_glob.
  destruct (_library_destination_for self (fs st) path) as [maybe|e2] eqn:D.
  - destruct (FS.glob (fs st) (PathOps.parent maybe) _ false) as [globs|e3] eqn:G.
    + destruct (_ =? 1)%nat; [intros H; raised_tac|].
      destruct (negb _); [intros H; raised_tac; tauto | discriminate].
    + intros H; raised_tac. apply glob_raise in G. tauto.
  - intros H; raised_tac.
    destruct (library_destination_raise _ _ _ _ D) as (m & S & F & ->).
    right. right. right. left. eauto.
Qed.

(** What [_decide] raises, and that it leaves the state alone. *)
Lemma decide_exceptions (self : Importer) (path new_media : Path)
  (st st' : state) (e : exn) :
  _decide self path new_media st = (st', Raise e) ->
  st' = st /\ raised_by_decide self path (fs st) e.
Proof.
  rewrite decide_eq. destruct (Str.startswith "." (PathOps.name path)).
  - destruct (String.eqb _ _).
    + unfold trashed. destruct (trash_ok self st); [discriminate|].
      intros H; injection H as <- <-. unfold raised_by_decide. tauto.
    + unfold confirm_trashed. destruct (confirm_trash_ok self st); [discriminate|].
      intros H; injection H as <- <-. unfold raised_by_decide. tauto.
  - destruct (prefer_raw_outcomes self path new_media st) as [E|[[e1 E]|E]].
    + rewrite E. unfold found, trashed.
      destruct (trash_ok self st); [discriminate|]. cbn [fst snd].
      intros H; injection H as <- <-. unfold raised_by_decide. tauto.
    + rewrite E. intros H; injection H as <- <-.
      split; [reflexivity | exact (prefer_raw_raise _ _ _ _ _ _ E)].
    + rewrite E.
      destruct (numbered_copy_outcomes self path new_media st) as [E'|[[e1 E']|E']].
      * rewrite E'. unfold found, trashed.
        destruct (trash_ok self st); [discriminate|]. cbn [fst snd].
        intros H; injection H as <- <-. unfold raised_by_decide. tauto.
      * rewrite E'. intros H; injection H as <- <-.
        split; [reflexivity | exact (numbered_copy_raise _ _ _ _ _ _ E')].
      * rewrite E'. unfold place.
        destruct (_library_destination_for self (fs st) path) as [dest|e2] eqn:D.
        -- destruct (FS.blocked _ _); [|discriminate].
           intros H; injection H as <- <-. split; [reflexivity|].
           unfold raised_by_decide. do 6 right. eauto.
        -- intros H; injection H as <- <-. split; [reflexivity|].
           destruct (library_destination_raise _ _ _ _ D) as (m & S & F & ->).
           unfold raised_by_decide. right. right. right. left. eauto.
Qed.
(** ** [strptime] reads back what [strftime] writes *)

Lemma Z_range_forall (P : Z -> bool) (n : nat) :
  forall lo, all_from P lo n = true ->
  forall z, lo <= z < lo + Z.of_nat n -> P z = true.
Proof.
  induction n as [|n IH]; intros lo H z Hz; [lia|].
  simpl in H. apply andb_true_iff in H as [H0 H1].
  destruct (Z.eq_dec z lo) as [->|Hne]; [exact H0|].
  apply (IH (lo + 1) H1). lia.
Qed.

(** A year from 1000 on is written with its four digits. *)
Lemma fmt_Y_digits (y : Z) :
  1000 <= y <= 9999 ->
  Date.decimal y
  = String (Date.digit (y / 1000)) (String (Date.digit (y / 100))
      (String (Date.digit (y / 10)) (String (Date.digit y) ""))).
Proof.
  intros Hy.
  apply String.eqb_eq.
  apply (Z_range_forall
           (fun y => String.eqb (Date.decimal y)
              (String (Date.digit (y / 1000)) (String (Date.digit (y / 100))
                 (String (Date.digit (y / 10)) (String (Date.digit y) "")))))
           (Z.to_nat 9000) 1000); [vm_compute; reflexivity | lia].
Qed.


Lemma month_day_roundtrip (m d : Z) :
  1 <= m <= 12 -> 1 <= d <= 31 ->
  Date.month_day_match (Date.zfill 2 (Date.decimal m) ++ Date.zfill 2 (Date.decimal d))
  = Some (m, d, "").
Proof.
  intros Hm Hd.
  pose (check := fun m d =>
    match Date.month_day_match
            (Date.zfill 2 (Date.decimal m) ++ Date.zfill 2 (Date.decimal d)) with
    | Some (m', d', "") => (m' =? m) && (d' =? d)
    | _ => false
    end).
  assert (H : check m d = true).
  { apply (Z_range_forall (check m) 31 1); [|lia].
    apply (Z_range_forall (fun m => all_from (check m) 1 31) 12 1);
      [vm_compute; reflexivity | lia]. }
  unfold check in H.
  destruct (Date.month_day_match _) as [[[m' d'] [|? ?]]|]; try discriminate.
  apply andb_true_iff in H as [H1 H2].
  apply Z.eqb_eq in H1, H2. subst. reflexivity.
Qed.

Lemma digit_value_digit (n : Z) : Date.digit_value (Date.digit n) = n mod 10.
Proof.
  unfold Date.digit_value, Date.digit, Str.code.
  assert (H : 0 <= n mod 10 < 10) by (apply Z.mod_pos_bound; lia).
  rewrite N_ascii_embedding; lia.
Qed.

Lemma valid_bounds (dt : Date.date) :
  Date.valid dt = true ->
  1 <= Date.year dt <= 9999 /\ 1 <= Date.month dt <= 12
  /\ 1 <= Date.day dt <= 31.
Proof.
  unfold Date.valid, Date.days_in_month. rewrite !andb_true_iff.
  intros [[[[[H1 H2] H3] H4] H5] H6].
  apply Z.leb_le in H1, H2, H3, H4, H5, H6.
  repeat split; try assumption.
  destruct (_ =? 2); [destruct (Date.is_leap _); lia|].
  destruct (_ || _); lia.
Qed.

(** The eight digits [strftime] writes for a date the calendar has are
    read back by [strptime] as that date. *)
Lemma strptime_strftime (dt : Date.date) :
  Date.valid dt = true -> 1000 <= Date.year dt ->
  Date.strptime_Ymd (Date.fmt_Y dt ++ Date.fmt_m dt ++ Date.fmt_d dt) = Some dt.
Proof.
  intros Hv Hk. destruct (valid_bounds dt Hv) as (Hy & Hm & Hd).
  unfold Date.strptime_Ymd, Date.fmt_Y, Date.fmt_m, Date.fmt_d.
  rewrite (fmt_Y_digits (Date.year dt)) by lia. cbn [append Date.first_match].
  rewrite !digit_is_decimal. cbn [andb].
  rewrite (month_day_roundtrip _ _ Hm Hd), !digit_value_digit.
  assert (E : 1000 * ((Date.year dt / 1000) mod 10)
              + 100 * ((Date.year dt / 100) mod 10)
              + 10 * ((Date.year dt / 10) mod 10) + Date.year dt mod 10
              = Date.year dt).
  { Z.div_mod_to_equations. lia. }
  rewrite E. destruct dt as [y m d]. cbn [Date.year Date.month Date.day] in *.
  rewrite Hv. reflexivity.
Qed.

(** From 1970 to 2106 the date of a day number is a date of the
    calendar, and its day number is the one it came from. *)
Lemma of_days_calendar (n : Z) :
  0 <= n < 50000 ->
  Date.valid (Date.of_days n) = true /\ Date.to_days (Date.of_days n) = n.
Proof.
  intros Hn.
  pose (check := fun n => Date.valid (Date.of_days n)
                          && (Date.to_days (Date.of_days n) =? n)).
  assert (H : all_from check 0 (Z.to_nat 50000) = true)
    by (vm_compute; reflexivity).
  assert (C : check n = true)
    by (apply (Z_range_forall check (Z.to_nat 50000) 0 H n); lia).
  unfold check in C. apply andb_true_iff in C as [C1 C2].
  apply Z.eqb_eq in C2. auto.
Qed.

Lemma fromtimestamp_calendar (us : Z) :
  0 <= us / Date.us_per_day < 50000 ->
  Date.fromtimestamp us = Some (Date.of_days (us / Date.us_per_day)).
Proof.
  intros H. destruct (of_days_calendar _ H) as [V _].
  destruct (valid_bounds _ V) as ([Y1 Y2] & _).
  unfold Date.fromtimestamp. cbv zeta.
  apply Z.leb_le in Y1, Y2. rewrite Y1, Y2. reflexivity.
Qed.


Example epoch_day : Date.of_days 0 = Date.mkdate 1970 1 1.
Proof. reflexivity. Qed.

Lemma decimal_chars_isdigit (s : string) :
  Str.all_chars Str.is_decimal s = true ->
  Str.all_chars Str.isdigit_char s = true.
Proof.
  induction s as [|c s IH]; simpl; [reflexivity|].
  intros H. apply andb_true_iff in H as [Hc Hs].
  unfold Str.isdigit_char at 1. rewrite Hc, (IH Hs). reflexivity.
Qed.

Lemma numeric_isdigit (s : string) : numeric_field s -> Str.isdigit s = true.
Proof.
  intros [Hne Hd]. unfold Str.isdigit. destruct s as [|a s]; [congruence|].
  apply decimal_chars_isdigit; exact Hd.
Qed.

(** ** Files with a date in their name *)

Lemma fmt_numeric (dt : Date.date) :
  numeric_field (Date.fmt_Y dt ++ Date.fmt_m dt ++ Date.fmt_d dt).
Proof.
  destruct (decimal_numeric (Date.year dt)) as [Y0 Y1].
  destruct (zfill_numeric 2 (Date.month dt)) as [_ M1].
  destruct (zfill_numeric 2 (Date.day dt)) as [_ D1].
  unfold Date.fmt_Y, Date.fmt_m, Date.fmt_d. split.
  - destruct (Date.decimal (Date.year dt)); [congruence | discriminate].
  - rewrite !all_chars_app, Y1, M1, D1. reflexivity.
Qed.

Lemma pixel_name_date_part (prefix rest : string) (dt : Date.date) :
  Str.contains "_" prefix = false ->
  date_part (prefix ++ "_"
             ++ (Date.fmt_Y dt ++ Date.fmt_m dt ++ Date.fmt_d dt) ++ "_" ++ rest)
  = Some (Date.fmt_Y dt ++ Date.fmt_m dt ++ Date.fmt_d dt).
Proof.
  intros Hp. pose proof (fmt_numeric dt) as Hnum.
  unfold date_part.
  change (prefix ++ "_" ++ ?x ++ "_" ++ rest)
    with (prefix ++ String "_" (x ++ String "_" rest)).
  rewrite split_app_sep by exact Hp.
  rewrite split_app_sep
    by (apply numeric_no_char; [reflexivity | apply Hnum]).
  cbn [List.length nth Nat.ltb Nat.leb orb].
  rewrite (numeric_isdigit _ Hnum). reflexivity.
Qed.



(** [place], when the destination is known. *)
Lemma place_at (self : Importer) (path dest : Path) (st : state) :
  _library_destination_for self (fs st) path = Ok dest ->
  place self path st
  = if FS.blocked (fs st) (PathOps.parent dest)
    then (st, Raise (OSError (PathOps.parent dest)))
    else (with_directory st (PathOps.parent dest), Ok dest).
Proof. intros E. unfold place. rewrite E. reflexivity. Qed.

(** The names a Pixel camera writes: [<PREFIX>_<YYYYMMDD>_<rest>] with a
    date the calendar has, from the year 1000 on, is computed to go to
    [<library>/YYYY/MM/DD/<name>], and goes there when it is unique and
    the directory can be made. *)
Lemma pixel_name_to_library (self : Importer) (dir new_media : Path)
  (prefix rest : string) (dt : Date.date) (st : state) :
  let ymd := Date.fmt_Y dt ++ Date.fmt_m dt ++ Date.fmt_d dt in
  let name := prefix ++ "_" ++ ymd ++ "_" ++ rest in
  let dated :=
    (library self ++ [Date.fmt_Y dt; Date.fmt_m dt; Date.fmt_d dt; name])%list in
  entry_name name = true ->
  Str.startswith "." name = false ->
  Str.contains "_" prefix = false ->
  Date.valid dt = true -> 1000 <= Date.year dt ->
  _library_destination_for self (fs st) (dir ++ [name])%list = Ok dated
  /\ (unique self (dir ++ [name])%list new_media st ->
      _decide self (dir ++ [name])%list new_media st
      = if FS.blocked (fs st) (PathOps.parent dated)
        then (st, Raise (OSError (PathOps.parent dated)))
        else (with_directory st (PathOps.parent dated), Ok dated)).
Proof.
  intros ymd name dated Hn Hdot Hp Hv Hk.
  assert (E : _library_destination_for self (fs st) (dir ++ [name])%list
              = Ok dated).
  { unfold dated. rewrite <- (name_app dir name) at 2.
    apply (dated_destination self (fs st) (dir ++ [name])%list ymd dt);
      rewrite ?name_app; auto.
    - apply pixel_name_date_part; exact Hp.
    - apply strptime_strftime; assumption. }
  split; [exact E|]. intros Hu.
  rewrite decide_unique; [| rewrite name_app; exact Hdot | exact Hu].
  apply place_at; exact E.
Qed.



(** ** Dotfiles *)

Lemma lstrip_one_dot (x : string) :
  Str.startswith "." x = false -> Str.lstrip "." (String "." x) = x.
Proof.
  intros H. simpl. destruct x as [|c x]; [reflexivity|].
  simpl in *. rewrite H. reflexivity.
Qed.

(** C4, as the code has it: a file whose name begins with a dot goes,
    whatever else is staged or stored, to [<quarantine>/trash/<name>]
    when the name without all its leading dots is [DS_Store], and
    otherwise to [<quarantine>/confirm/trash/<rest>], [rest] being the
    name without all its leading dots; for a name [.X] with one leading
    dot, [rest] is [X].  The one other outcome is the exception of
    [mkdir] when the directory is not cached and a regular file is in
    its way. *)
Theorem C4_dotfiles (self : Importer) (path new_media : Path) (st : state) :
  Str.startswith "." (PathOps.name path) = true ->
  let name := PathOps.name path in
  let rest := Str.lstrip "." name in
  _decide self path new_media st
  = (if String.eqb rest "DS_Store"
     then if trash_cached st
             || negb (FS.blocked (fs st) (quarantine self ++ ["trash"])%list)
          then (after_trash self st,
                Ok ((quarantine self ++ ["trash"])%list // name))
          else (st, Raise (OSError (quarantine self ++ ["trash"])%list))
     else if confirm_trash_cached st
             || negb (FS.blocked (fs st)
                                 (quarantine self ++ ["confirm"; "trash"])%list)
          then (after_confirm_trash self st,
                Ok ((quarantine self ++ ["confirm"; "trash"])%list // rest))
          else (st, Raise (OSError (quarantine self ++ ["confirm"; "trash"])%list)))
  /\ (forall x, name = String "." x -> Str.startswith "." x = false -> rest = x).
Proof.
  intros Hdot name rest. split.
  - rewrite decide_eq, Hdot. reflexivity.
  - intros x E Hx. unfold rest. rewrite E. apply lstrip_one_dot; exact Hx.
Qed.

Lemma C4_witness :
  _decide Sample.importer (Sample.file ".hiddenfile.jpg") Sample.new
          (Sample.staged [".hiddenfile.jpg"] Sample.now)
  = (after_confirm_trash Sample.importer
       (Sample.staged [".hiddenfile.jpg"] Sample.now),
     Ok ["t"; "quarantine"; "confirm"; "trash"; "hiddenfile.jpg"]).
Proof.
  apply (C4_dotfiles Sample.importer (Sample.file ".hiddenfile.jpg") Sample.new
           (Sample.staged [".hiddenfile.jpg"] Sample.now)).
  reflexivity.
Defined.

(** C4 as stated fails on a name with two leading dots: [..foo] is the
    dotfile [.X] with [X = .foo], which is to be stored as
    [confirm/trash/.foo]; the code stores it as [confirm/trash/foo]. *)
Lemma C4_counterexample :
  dotfile_destination_as_specified Sample.importer "..foo"
  = Some ["t"; "quarantine"; "confirm"; "trash"; ".foo"]
  /\ snd (_decide Sample.importer (Sample.file "..foo") Sample.new
                  (Sample.staged ["..foo"] Sample.now))
     = Ok ["t"; "quarantine"; "confirm"; "trash"; "foo"]
  /\ snd (_decide Sample.importer (Sample.file "..foo") Sample.new
                  (Sample.staged ["..foo"] Sample.now))
     <> match dotfile_destination_as_specified Sample.importer "..foo" with
        | Some d => Ok d
        | None => Raise (ValueError [])
        end.
Proof.
  split; [reflexivity|]. split; [reflexivity|]. vm_compute. discriminate.
Qed.
(** ** Files without a date in their name *)


(** A modification time [datetime] cannot hold makes the computation of
    the destination raise, on either side of the trust cutoff. *)
Lemma undated_out_of_range (self : Importer) (fs : FS.t) (path : Path)
  (mtime : Z) :
  date_part (PathOps.name path) = None ->
  FS.stat fs path = Some mtime ->
  Date.fromtimestamp mtime = None ->
  _library_destination_for self fs path = Raise (OutOfRange mtime).
Proof.
  intros Hd Hs Hf. rewrite library_destination_cases, Hd, Hs, Hf. reflexivity.
Qed.

(** C5 at a modification time in the year 10000: [holiday.mov] has no
    date in its name and a modification time strictly newer than the
    trust cutoff, so it is to be quarantined; [fromtimestamp] raises
    instead, nothing catches it, and [ingest] stops with that exception
    and the file not moved.  And at a file that has vanished: [_decide]
    answers [<quarantine>/<name>] for it, but the move that [ingest]
    makes next raises. *)
Theorem C5_mtime_beyond_datetime_raises :
  let name := "holiday.mov" in
  let mtime := 253402300800000000 in
  let st := Sample.staged [name] mtime in
  let gone := Sample.staged [] Sample.now in
  Str.startswith "." name = false
  /\ date_part name = None
  /\ plain (Sample.file name) = true
  /\ FS.stat (fs st) (Sample.file name) = Some mtime
  /\ mtime > _newest_trusted_mtime Sample.importer
  /\ Date.of_days (mtime / Date.us_per_day) = Date.mkdate 10000 1 1
  /\ _decide Sample.importer (Sample.file name) Sample.new st
     = (st, Raise (OutOfRange mtime))
  /\ ingest Sample.importer Sample.new st = (st, Raise (OutOfRange mtime))
  /\ FS.stat (fs gone) (Sample.file name) = None
  /\ _decide Sample.importer (Sample.file name) Sample.new gone
     = (gone, Ok ["t"; "quarantine"; name])
  /\ snd (Mover.move (Mover.mk (move Sample.importer) []) (Sample.file name)
                     ["t"; "quarantine"; name] gone)
     = Raise (OSError (Sample.file name)).
Proof. repeat split; vm_compute; reflexivity. Qed.
(** ** Dates that cannot be told *)




(** ** Patterns built from a stem *)

Lemma matches_star_end (cs : bool) (n : string) :
  Fnmatch.matches cs [Fnmatch.Star] n = true.
Proof.
  simpl. induction n as [|c n IH]; [reflexivity|].
  destruct n; simpl in *; try reflexivity. exact IH.
Qed.

Lemma translate_literal_app (s t : string) :
  glob_literal s = true ->
  Fnmatch.translate O (s ++ t)
  = (map Fnmatch.Lit (list_ascii_of_string s) ++ Fnmatch.translate O t)%list.
Proof.
  induction s as [|c s IH]; simpl; intros H; [reflexivity|].
  apply andb_true_iff in H as [Hc Hs]. apply negb_true_iff in Hc.
  apply orb_false_iff in Hc as [Hc H3]. apply orb_false_iff in Hc as [H1 H2].
  rewrite H1, H2, H3, (IH Hs). reflexivity.
Qed.

(** Without case, a literal pattern followed by [*] matches the names
    that begin with it. *)
Lemma fnmatch_literal_star (s n : string) :
  glob_literal s = true ->
  Fnmatch.fnmatch false (s ++ "*") n = String.prefix (Str.lower s) (Str.lower n).
Proof.
  intros H. unfold Fnmatch.fnmatch. rewrite (translate_literal_app s "*" H).
  clear H. revert n. induction s as [|c s IH]; intros n.
  - simpl (map _ _ ++ _)%list. change (Fnmatch.translate 0 "*") with [Fnmatch.Star].
    rewrite matches_star_end. destruct n; reflexivity.
  - destruct n as [|d n]; [reflexivity|].
    cbn [list_ascii_of_string map app Fnmatch.matches Str.lower String.prefix].
    rewrite IH. unfold Fnmatch.char_matches.
    rewrite Ascii.eqb_sym.
    destruct (Ascii.eqb_spec (Str.lower_char c) (Str.lower_char d)) as [E|E].
    + destruct (ascii_dec _ _); [reflexivity | congruence].
    + destruct (ascii_dec _ _); [congruence | reflexivity].
Qed.


Lemma has_double_star_app (s t : string) :
  Str.contains "*" s = false ->
  FS.has_double_star (s ++ t) = FS.has_double_star t.
Proof.
  induction s as [|a s IH]; intros H; [reflexivity|].
  rewrite contains_cons in H. apply orb_false_iff in H as [Ha Hs].
  rewrite <- (IH Hs). cbn [append FS.has_double_star].
  rewrite Ha. destruct (s ++ t); reflexivity.
Qed.

Lemma literal_no_star (s : string) :
  glob_literal s = true -> Str.contains "*" s = false.
Proof.
  unfold glob_literal. induction s as [|a s IH]; simpl; intros H; [reflexivity|].
  apply andb_true_iff in H as [Ha Hs]. apply negb_true_iff in Ha.
  apply orb_false_iff in Ha as [Ha _]. apply orb_false_iff in Ha as [Ha _].
  rewrite contains_cons, Ha, (IH Hs). reflexivity.
Qed.

Lemma eqb_by_contains (c : ascii) (a b : string) :
  Str.contains c a <> Str.contains c b -> String.eqb a b = false.
Proof. intros H. apply String.eqb_neq. intros ->. congruence. Qed.


(** So is the pattern of the glob for the original of a numbered
    copy. *)
Lemma glob_literal_star (fs : FS.t) (dir : Path) (s : string) :
  glob_literal s = true ->
  FS.glob fs dir (s ++ "*") false
  = Ok (filter (fun p => Fnmatch.fnmatch false (s ++ "*") (PathOps.name p))
               (FS.entries fs dir)).
Proof.
  intros H. pose proof (literal_no_star s H) as Hs. unfold FS.glob.
  assert (G : Str.contains "*" (s ++ "*") = true).
  { rewrite contains_app. apply orb_true_iff. right. reflexivity. }
  assert (E1 : String.eqb (s ++ "*") "" = false)
    by (apply (eqb_by_contains "*"); rewrite G; discriminate).
  assert (E3 : String.eqb (s ++ "*") ".." = false)
    by (apply (eqb_by_contains "*"); rewrite G; discriminate).
  assert (E2 : String.eqb (s ++ "*") "**" = false).
  { destruct s as [|a s]; [reflexivity|].
    rewrite contains_cons in Hs. apply orb_false_iff in Hs as [Ha _].
    cbn [append String.eqb]. rewrite Ha. reflexivity. }
  rewrite E1, E2, E3, (has_double_star_app s "*" Hs). reflexivity.
Qed.
(** ** The RAW-preference block *)



(** C2 at a stem with a bracket: [x[1].dng] is staged beside
    [x[1].jpg], one RAW companion of the same stem, but the pattern
    [x[1].dng] the block builds finds nothing, and the JPEG goes to the
    library instead of the trash. *)
Theorem C2_bracket_stem_keeps_jpeg :
  let st := Sample.staged ["x[1].jpg"; "x[1].dng"] Sample.jan_2_2024 in
  let jpeg := Sample.file "x[1].jpg" in
  jpeg_suffix (PathOps.suffix jpeg) = true
  /\ filter (fun p => same_stem_raw jpeg (PathOps.name p))
            (FS.entries (fs st) Sample.new) = [Sample.file "x[1].dng"]
  /\ FS.iterdir (fs st) Sample.new
     = Ok [Sample.file "x[1].jpg"; Sample.file "x[1].dng"]
  /\ FS.glob (fs st) Sample.new (PathOps.stem jpeg ++ ".dng") false = Ok []
  /\ snd (_decide Sample.importer jpeg Sample.new st)
     = Ok ["t"; "library"; "2024"; "01"; "02"; "x[1].jpg"].
Proof. repeat split; reflexivity. Qed.
(** ** The numbered-copy block *)

Lemma rpartition_none (sep : ascii) (t : string) :
  Str.contains sep t = false -> Str.rpartition sep t = (None, t).
Proof.
  induction t as [|c t IH]; simpl; intros H; [reflexivity|].
  rewrite contains_cons in H. apply orb_false_iff in H as [Hc Ht].
  rewrite (IH Ht), Hc. reflexivity.
Qed.

(** C3 at a stem with a bracket: the library holds
    [x[1]_20240101_1.mp4] where the staged copy
    [x[1]_20240101_1~2.mp4] is bound, one entry whose name starts with
    the original stem; the pattern [x[1]_20240101_1*] the block builds
    finds nothing, and the copy is placed beside its original instead
    of going to the trash. *)
Theorem C3_bracket_stem_keeps_copy :
  let st := Sample.original_in_library in
  let name := "x[1]_20240101_1~2.mp4" in
  let copy := Sample.file name in
  let dir := ["t"; "library"; "2024"; "01"; "01"] in
  Str.startswith "." name = false
  /\ jpeg_suffix (PathOps.suffix copy) = false
  /\ copy_stem copy = "x[1]_20240101_1" /\ copy_number copy = "2"
  /\ FS.exists_ (fs st) (original_of copy Sample.new) = false
  /\ _library_destination_for Sample.importer (fs st) copy
     = Ok (dir ++ [name])%list
  /\ filter (fun p => String.prefix (copy_stem copy) (PathOps.name p))
            (FS.entries (fs st) dir)
     = [(dir ++ ["x[1]_20240101_1.mp4"])%list]
  /\ FS.glob (fs st) dir (copy_stem copy ++ "*") false = Ok []
  /\ snd (_decide Sample.importer copy Sample.new st) = Ok (dir ++ [name])%list
  /\ snd (ingest Sample.importer Sample.new st)
     = Ok [(name, (dir ++ [name])%list)].
Proof. repeat split; vm_compute; reflexivity. Qed.

(** ** Duplicate checks of a file bound for the quarantine *)

(** C10 at a stem with a bracket: [x[1].jpg] has no date in its name
    and a modification time newer than the trust cutoff, so its computed
    destination is [<quarantine>/x[1].jpg] and the second RAW check
    globs the quarantine root, which holds [x[1].dng], one RAW file of
    the same stem; the pattern [x[1].dng] finds nothing, and the JPEG is
    quarantined instead of going to the trash. *)
Theorem C10_bracket_stem_in_quarantine :
  let st := Sample.raw_in_quarantine in
  let jpeg := Sample.file "x[1].jpg" in
  Str.startswith "." "x[1].jpg" = false
  /\ jpeg_suffix (PathOps.suffix jpeg) = true
  /\ date_part "x[1].jpg" = None
  /\ FS.stat (fs st) jpeg = Some Sample.now
  /\ Sample.now > _newest_trusted_mtime Sample.importer
  /\ _library_destination_for Sample.importer (fs st) jpeg
     = Ok ["t"; "quarantine"; "x[1].jpg"]
  /\ FS.glob (fs st) Sample.new (PathOps.stem jpeg ++ ".dng") false = Ok []
  /\ filter (fun p => same_stem_raw jpeg (PathOps.name p))
            (FS.entries (fs st) Sample.quar)
     = [["t"; "quarantine"; "x[1].dng"]]
  /\ FS.glob (fs st) Sample.quar (PathOps.stem jpeg ++ ".dng") false = Ok []
  /\ snd (_decide Sample.importer jpeg Sample.new st)
     = Ok ["t"; "quarantine"; "x[1].jpg"]
  /\ snd (ingest Sample.importer Sample.new st)
     = Ok [("x[1].jpg", ["t"; "quarantine"; "x[1].jpg"])].
Proof. repeat split; vm_compute; reflexivity. Qed.
(** ** The file system under [mkdir] and [rename] *)

Lemma lookup_add (fs : FS.t) (p q : Path) (n : FS.node) :
  FS.lookup (FS.add fs p n) q =
  match FS.lookup fs q with
  | Some x => Some x
  | None => if PathOps.eqb p q then Some n else None
  end.
Proof.
  unfold FS.add. induction fs as [|[r x] fs IH]; simpl; [reflexivity|].
  destruct (PathOps.eqb r q); [reflexivity | exact IH].
Qed.

Lemma lookup_remove (fs : FS.t) (p q : Path) :
  FS.lookup (FS.remove fs p) q
  = if PathOps.eqb p q then None else FS.lookup fs q.
Proof.
  unfold FS.remove. induction fs as [|[r x] fs IH]; simpl.
  - destruct (PathOps.eqb p q); reflexivity.
  - destruct (PathOps.eqb r p) eqn:Erp; simpl.
    + apply path_eqb_eq in Erp. subst r. rewrite IH.
      destruct (PathOps.eqb p q); reflexivity.
    + destruct (PathOps.eqb r q) eqn:Erq; [|exact IH].
      apply path_eqb_eq in Erq. subst r. rewrite path_eqb_sym, Erp.
      reflexivity.
Qed.

Lemma grows_refl (fs : FS.t) : grows fs fs.
Proof. intros q; left; reflexivity. Qed.

Lemma grows_trans (a b c : FS.t) : grows a b -> grows b c -> grows a c.
Proof.
  intros H1 H2 q. destruct (H1 q) as [E1|[E1 E1']], (H2 q) as [E2|[E2 E2']].
  - left; congruence.
  - right; split; congruence.
  - right; split; congruence.
  - congruence.
Qed.

Lemma mkdir1_grows (fs : FS.t) (p : Path) : grows fs (FS.mkdir1 fs p).
Proof.
  unfold FS.mkdir1. destruct (FS.exists_ fs p) eqn:E; [apply grows_refl|].
  intros q. rewrite lookup_add. destruct (FS.lookup fs q) eqn:L; [left; reflexivity|].
  destruct (PathOps.eqb p q); [right; split; reflexivity | left; reflexivity].
Qed.

Lemma made_grows (fs : FS.t) (p : Path) : grows fs (FS.made fs p).
Proof.
  unfold FS.made. generalize (FS.prefixes p) as l. intros l. revert fs.
  induction l as [|x l IH]; intros fs; simpl; [apply grows_refl|].
  eapply grows_trans; [apply mkdir1_grows | apply IH].
Qed.


Lemma grows_is_file (fs fs' : FS.t) (q : Path) :
  grows fs fs' -> FS.is_file fs' q = FS.is_file fs q.
Proof.
  intros H. unfold FS.is_file. destruct (H q) as [E|[E E']]; rewrite ?E, ?E';
    reflexivity.
Qed.

Lemma grows_dir (fs fs' : FS.t) (q : Path) :
  grows fs fs' -> FS.lookup fs q = Some FS.Dir -> FS.lookup fs' q = Some FS.Dir.
Proof. intros H L. destruct (H q) as [E|[E E']]; congruence. Qed.

Lemma after_trash_grows (self : Importer) (st : state) :
  grows (fs st) (fs (after_trash self st)).
Proof.
  rewrite after_trash_eq. destruct (trash_cached st); [apply grows_refl|].
  destruct (FS.blocked _ _); [apply grows_refl | apply made_grows].
Qed.

Lemma after_confirm_trash_grows (self : Importer) (st : state) :
  grows (fs st) (fs (after_confirm_trash self st)).
Proof.
  rewrite after_confirm_trash_eq.
  destruct (confirm_trash_cached st); [apply grows_refl|].
  destruct (FS.blocked _ _); [apply grows_refl | apply made_grows].
Qed.

Lemma with_directory_grows (st : state) (d : Path) :
  grows (fs st) (fs (with_directory st d)).
Proof. unfold with_directory; simpl. apply made_grows. Qed.

(** Whatever [_decide] answers, the state it leaves is one of four:
    the one it found, when it raises; the one after [trash] or
    [confirm_trash] was read, for a path under these; the one with the
    directory of the destination made. *)
Lemma decide_states (self : Importer) (path new_media : Path) (st st' : state)
  (r : result Path) :
  _decide self path new_media st = (st', r) ->
  (st' = st /\ exists e, r = Raise e /\ raised_by_decide self path (fs st) e)
  \/ (st' = after_trash self st /\ r = Ok (trash_dir self // PathOps.name path))
  \/ (st' = after_confirm_trash self st
      /\ r = Ok (confirm_trash_dir self // Str.lstrip "." (PathOps.name path)))
  \/ (exists dest,
        _library_destination_for self (fs st) path = Ok dest
        /\ FS.blocked (fs st) (PathOps.parent dest) = false
        /\ st' = with_directory st (PathOps.parent dest) /\ r = Ok dest).
Proof.
  intros H. destruct r as [dest|e].
  - right. destruct (Str.startswith "." (PathOps.name path)) eqn:Hdot.
    + rewrite decide_eq, Hdot in H. destruct (String.eqb _ _).
      * destruct (trashed_cases self path st) as [T|T]; rewrite T in H;
          [injection H as <- <-; auto | discriminate].
      * destruct (confirm_trashed_cases self path st) as [T|T]; rewrite T in H;
          [injection H as <- <-; auto | discriminate].
    + destruct (decide_outcomes self path new_media st Hdot)
        as [E|[[e E]|[_ E]]]; rewrite E in H.
      * destruct (trashed_cases self path st) as [T|T]; rewrite T in H;
          [injection H as <- <-; auto | discriminate].
      * discriminate.
      * unfold place in H.
        destruct (_library_destination_for self (fs st) path) as [d|e] eqn:D;
          [|discriminate].
        destruct (FS.blocked (fs st) (PathOps.parent d)) eqn:B; [discriminate|].
        injection H as <- <-. right. right. exists d. auto.
  - left. destruct (decide_exceptions _ _ _ _ _ _ H) as [-> R]. eauto.
Qed.

Lemma decide_grows (self : Importer) (path new_media : Path) (st st' : state)
  (r : result Path) :
  _decide self path new_media st = (st', r) -> grows (fs st) (fs st').
Proof.
  intros H.
  destruct (decide_states _ _ _ _ _ _ H)
    as [[-> _]|[[-> _]|[[-> _]|(dest & _ & _ & -> & _)]]].
  - apply grows_refl.
  - apply after_trash_grows.
  - apply after_confirm_trash_grows.
  - apply with_directory_grows.
Qed.

(** An exception of [_decide] leaves the state as it was. *)
Lemma decide_raise (self : Importer) (path new_media : Path) (st st' : state)
  (e : exn) :
  _decide self path new_media st = (st', Raise e) -> st' = st.
Proof.
  intros H.
  destruct (decide_states _ _ _ _ _ _ H)
    as [[-> _]|[[_ E]|[[_ E]|(dest & _ & _ & _ & E)]]];
    try discriminate. reflexivity.
Qed.

Lemma rename_moves_only_source : moves_only_source FS.rename.
Proof.
  split; intros src dst fs fs' q; unfold FS.rename.
  - intros H Hq Hf. destruct (FS.lookup fs src) as [[m|]|]; try discriminate.
    destruct (_ || _); [discriminate|]. injection H as <-.
    unfold FS.is_file in *. rewrite lookup_add, !lookup_remove.
    destruct (PathOps.eqb dst q) eqn:Edq; [reflexivity|].
    destruct (PathOps.eqb src q) eqn:Esq.
    + apply path_eqb_eq in Esq. congruence.
    + destruct (FS.lookup fs q) as [[?|]|]; congruence.
  - intros H Hd. destruct (FS.lookup fs src) as [[m|]|] eqn:Ls; try discriminate.
    destruct (FS.is_dir fs dst) eqn:Edir; simpl in H; [discriminate|].
    destruct (negb _); [discriminate|]. injection H as <-.
    rewrite lookup_add, !lookup_remove.
    destruct (PathOps.eqb dst q) eqn:Edq.
    + apply path_eqb_eq in Edq. subst q. unfold FS.is_dir in Edir.
      rewrite Hd, orb_true_r in Edir. discriminate.
    + destruct (PathOps.eqb src q) eqn:Esq.
      * apply path_eqb_eq in Esq. congruence.
      * rewrite Hd. reflexivity.
Qed.

(** ** The loop of [ingest] *)

Lemma ingest_loop_cons (self : Importer) (new_media path : Path)
  (paths : list Path) (mover : Mover.t) (st : state) :
  ingest_loop self new_media (path :: paths) mover st =
  if FS.is_file (fs st) path then
    match _decide self path new_media st with
    | (st1, Ok dest) =>
        match Mover._move mover path dest (fs st1) with
        | Ok fs2 =>
            ingest_loop self new_media paths
              (Mover.mk (Mover._move mover)
                 (Mover._journal mover ++ [(PathOps.name path, dest)])%list)
              (mkstate fs2 (trash_cached st1) (confirm_trash_cached st1))
        | Raise e => (st1, Raise e)
        end
    | (st1, Raise e) => (st1, Raise e)
    end
  else ingest_loop self new_media paths mover st.
Proof.
  cbn [ingest_loop]. unfold bind at 1. unfold read_fs at 1.
  destruct (FS.is_file (fs st) path); cbn [negb]; [|reflexivity].
  unfold bind at 1.
  destruct (_decide self path new_media st) as [st1 [dest|e]]; [|reflexivity].
  unfold bind at 1. unfold Mover.move, bind, try_fs, ret.
  destruct (Mover._move mover path dest (fs st1)); reflexivity.
Qed.

(** The loop over a list is the loop over its beginning, then over
    its end. *)
Lemma ingest_loop_app (self : Importer) (new_media : Path)
  (before after : list Path) :
  forall (mover : Mover.t) (st : state),
  ingest_loop self new_media (before ++ after) mover st =
  match ingest_loop self new_media before mover st with
  | (st1, Ok mover1) => ingest_loop self new_media after mover1 st1
  | (st1, Raise e) => (st1, Raise e)
  end.
Proof.
  induction before as [|p before IH]; intros mover st; [reflexivity|].
  rewrite <- app_comm_cons, !ingest_loop_cons.
  destruct (FS.is_file (fs st) p); [|apply IH].
  destruct (_decide self p new_media st) as [st1 [dest|e]]; [|reflexivity].
  destruct (Mover._move mover p dest (fs st1)); [apply IH | reflexivity].
Qed.

(** The mover keeps its move function. *)
Lemma ingest_loop_move (self : Importer) (new_media : Path)
  (paths : list Path) :
  forall (mover mover' : Mover.t) (st st' : state),
  ingest_loop self new_media paths mover st = (st', Ok mover') ->
  Mover._move mover' = Mover._move mover.
Proof.
  induction paths as [|p paths IH]; intros mover mover' st st' H.
  - injection H as _ <-. reflexivity.
  - rewrite ingest_loop_cons in H.
    destruct (FS.is_file (fs st) p); [|exact (IH _ _ _ _ H)].
    destruct (_decide self p new_media st) as [st1 [dest|e]]; [|discriminate].
    destruct (Mover._move mover p dest (fs st1)); [|discriminate].
    exact (IH _ _ _ _ H).
Qed.

(** Without regular files the loop does nothing. *)
Lemma ingest_loop_no_files (self : Importer) (new_media : Path)
  (paths : list Path) (mover : Mover.t) (st : state) :
  filter (FS.is_file (fs st)) paths = [] ->
  ingest_loop self new_media paths mover st = (st, Ok mover).
Proof.
  induction paths as [|p paths IH]; intros H; [reflexivity|].
  rewrite ingest_loop_cons. simpl in H.
  destruct (FS.is_file (fs st) p); [discriminate | apply IH; exact H].
Qed.

Lemma kept_is_file (fs0 fs1 : FS.t) (q : Path) :
  kept fs0 fs1 q -> FS.is_file fs1 q = FS.is_file fs0 q.
Proof.
  intros [[H0 H1]|[H0 H1]]; [congruence|].
  unfold FS.is_file. rewrite H0, H1. reflexivity.
Qed.

Lemma kept_step (self : Importer) (mv : Path -> Path -> FS.t -> result FS.t)
  (path new_media dest q : Path) (fs0 fs2 : FS.t) (st st1 : state) :
  moves_only_source mv ->
  _decide self path new_media st = (st1, Ok dest) ->
  mv path dest (fs st1) = Ok fs2 ->
  q <> path ->
  kept fs0 (fs st) q -> kept fs0 fs2 q.
Proof.
  intros [Hf Hd] HD HM Hq [[H0 H1]|[H0 H1]];
    pose proof (decide_grows _ _ _ _ _ _ HD) as G.
  - left. split; [exact H0|]. apply (Hf _ _ _ _ _ HM Hq).
    rewrite (grows_is_file _ _ q G). exact H1.
  - right. split; [exact H0|]. apply (Hd _ _ _ _ _ HM).
    apply (grows_dir _ _ q G H1).
Qed.

(** A run of the loop that comes to its end journals one record for
    each entry that was a regular file at the start, in their order. *)
Lemma ingest_loop_journal (self : Importer) (new_media : Path) (fs0 : FS.t)
  (paths : list Path) :
  forall (mover mover' : Mover.t) (st st' : state),
  moves_only_source (Mover._move mover) ->
  NoDup paths ->
  (forall q, In q paths -> kept fs0 (fs st) q) ->
  ingest_loop self new_media paths mover st = (st', Ok mover') ->
  exists records,
    Mover._journal mover' = (Mover._journal mover ++ records)%list
    /\ map fst records = map PathOps.name (filter (FS.is_file fs0) paths).
Proof.
  induction paths as [|p paths IH]; intros mover mover' st st' Hmv Hnd Hk H.
  - injection H as _ <-. exists []. rewrite app_nil_r. auto.
  - rewrite ingest_loop_cons in H. inversion Hnd as [|? ? Hnotin Hnd']; subst.
    cbn [filter]. rewrite <- (kept_is_file fs0 (fs st) p) by (apply Hk; left; reflexivity).
    destruct (FS.is_file (fs st) p).
    + destruct (_decide self p new_media st) as [st1 [dest|e]] eqn:HD;
        [|discriminate].
      destruct (Mover._move mover p dest (fs st1)) as [fs2|e] eqn:HM;
        [|discriminate].
      assert (Hk' : forall q, In q paths ->
                kept fs0 (fs (mkstate fs2 (trash_cached st1)
                                      (confirm_trash_cached st1))) q).
      { intros q Hq. cbn [fs].
        apply (kept_step self (Mover._move mover) p new_media dest q fs0 fs2
                 st st1 Hmv HD HM); [intros ->; contradiction|].
        apply Hk. right. exact Hq. }
      destruct (IH (Mover.mk _ _) _ _ _ Hmv Hnd' Hk' H) as (records & HJ & HM').
      cbn [Mover._journal] in HJ.
      exists ((PathOps.name p, dest) :: records). split.
      * rewrite HJ, <- app_assoc. reflexivity.
      * cbn [map fst]. rewrite HM'. reflexivity.
    + apply (IH _ _ _ _ Hmv Hnd') in H; auto.
      intros q Hq. apply Hk. right. exact Hq.
Qed.

(** A run of the loop that raises went through the entries before one
    regular file, and stops at that file: in the state their moves
    left, when [_decide] raises; in the state [_decide] left, when the
    move raises. *)
Lemma ingest_loop_raise (self : Importer) (new_media : Path)
  (paths : list Path) :
  forall (mover : Mover.t) (st st' : state) (e : exn),
  ingest_loop self new_media paths mover st = (st', Raise e) ->
  exists before path after st1 mover1,
    paths = (before ++ path :: after)%list
    /\ ingest_loop self new_media before mover st = (st1, Ok mover1)
    /\ FS.is_file (fs st1) path = true
    /\ ((st' = st1 /\ _decide self path new_media st1 = (st1, Raise e))
        \/ (exists dest,
              _decide self path new_media st1 = (st', Ok dest)
              /\ Mover._move mover path dest (fs st') = Raise e)).
Proof.
  induction paths as [|p paths IH]; intros mover st st' e H; [discriminate|].
  rewrite ingest_loop_cons in H.
  destruct (FS.is_file (fs st) p) eqn:Hf.
  - destruct (_decide self p new_media st) as [st1 [dest|e1]] eqn:HD.
    + destruct (Mover._move mover p dest (fs st1)) as [fs2|e2] eqn:HM.
      * apply IH in H.
        destruct H as (before & path & after & s1 & m1 & -> & HL & R).
        exists (p :: before), path, after, s1, m1. split; [reflexivity|].
        split; [|exact R]. rewrite ingest_loop_cons, Hf, HD, HM. exact HL.
      * injection H as <- <-.
        exists [], p, paths, st, mover. repeat split; eauto.
    + injection H as <- <-. pose proof (decide_raise _ _ _ _ _ _ HD) as ->.
      exists [], p, paths, st, mover. repeat split; auto.
  - apply IH in H. destruct H as (before & path & after & s1 & m1 & -> & HL & R).
    exists (p :: before), path, after, s1, m1. split; [reflexivity|].
    split; [|exact R]. rewrite ingest_loop_cons, Hf. exact HL.
Qed.

Lemma distinct_nodup (l : list Path) : distinct l = true -> NoDup l.
Proof.
  induction l as [|p l IH]; simpl; intros H; constructor;
    apply andb_true_iff in H as [H1 H2]; [|auto].
  intros Hin. apply negb_true_iff in H1.
  assert (E : existsb (PathOps.eqb p) l = true)
    by (apply existsb_exists; exists p; split; [exact Hin | apply path_eqb_refl]).
  congruence.
Qed.

Lemma lookup_in (fs : FS.t) (q : Path) :
  In q (map fst fs) -> exists n, FS.lookup fs q = Some n.
Proof.
  induction fs as [|[r x] fs IH]; simpl; [contradiction|].
  intros [->|H].
  - rewrite path_eqb_refl. eauto.
  - destruct (PathOps.eqb r q); eauto.
Qed.

Lemma entries_in (fs : FS.t) (d q : Path) :
  In q (FS.entries fs d) -> In q (map fst fs).
Proof.
  unfold FS.entries. destruct (FS.is_dir fs d); [|contradiction].
  intros H. apply filter_In in H. tauto.
Qed.

Lemma entries_nodup (fs : FS.t) (d : Path) :
  NoDup (map fst fs) -> NoDup (FS.entries fs d).
Proof.
  intros H. unfold FS.entries. destruct (FS.is_dir fs d); [|constructor].
  apply NoDup_filter. exact H.
Qed.

Lemma iterdir_eq (fs : FS.t) (d : Path) :
  FS.iterdir fs d
  = if FS.is_dir fs d then Ok (FS.entries fs d) else Raise (OSError d).
Proof. reflexivity. Qed.

Lemma kept_start (fs : FS.t) (q : Path) : In q (map fst fs) -> kept fs fs q.
Proof.
  intros H. destruct (lookup_in fs q H) as [[m|] L]; unfold kept, FS.is_file.
  - left. rewrite L. auto.
  - right. auto.
Qed.

Lemma ingest_eq (self : Importer) (new_media : Path) (st : state) :
  ingest self new_media st =
  match FS.iterdir (fs st) new_media with
  | Raise e => (st, Raise e)
  | Ok paths =>
      match ingest_loop self new_media paths (Mover.mk (move self) []) st with
      | (st', Ok mover') => (st', Ok (Mover._journal mover'))
      | (st', Raise e) => (st', Raise e)
      end
  end.
Proof.
  unfold ingest, bind, read_fs, lift, ret, Mover.manifest.
  destruct (FS.iterdir (fs st) new_media) as [paths|e]; [|reflexivity].
  destruct (ingest_loop _ _ _ _ _) as [st' [m|e]]; reflexivity.
Qed.

(** The manifest of a run that completes names the regular files of
    the staging directory, in the order of the enumeration. *)
Lemma ingest_names (self : Importer) (new_media : Path) (st st' : state)
  (manifest : list (string * Path)) :
  NoDup (map fst (fs st)) ->
  moves_only_source (move self) ->
  ingest self new_media st = (st', Ok manifest) ->
  FS.is_dir (fs st) new_media = true
  /\ map fst manifest
     = map PathOps.name
           (filter (FS.is_file (fs st)) (FS.entries (fs st) new_media)).
Proof.
  intros Hnd Hmv H. rewrite ingest_eq, iterdir_eq in H.
  destruct (FS.is_dir (fs st) new_media); [|discriminate].
  split; [reflexivity|].
  destruct (ingest_loop self new_media (FS.entries (fs st) new_media)
              (Mover.mk (move self) []) st) as [st1 [mover'|e]] eqn:HL;
    [|discriminate].
  injection H as _ <-.
  destruct (ingest_loop_journal self new_media (fs st)
              (FS.entries (fs st) new_media) (Mover.mk (move self) []) _ _ _
              Hmv (entries_nodup _ _ Hnd)
              (fun q Hq => kept_start _ _ (entries_in _ _ _ Hq)) HL)
    as (records & HJ & HM).
  rewrite HJ. exact HM.
Qed.

(** What [ingest] does at one regular file, after the loop went
    through the entries before it. *)
Lemma ingest_at (self : Importer) (new_media : Path) (st st1 : state)
  (before after : list Path) (path : Path) (m1 : Mover.t) :
  FS.iterdir (fs st) new_media = Ok (before ++ path :: after)%list ->
  ingest_loop self new_media before (Mover.mk (move self) []) st = (st1, Ok m1) ->
  FS.is_file (fs st1) path = true ->
  match _decide self path new_media st1 with
  | (st2, Raise e) => st2 = st1 /\ ingest self new_media st = (st1, Raise e)
  | (st2, Ok dest) =>
      match move self path dest (fs st2) with
      | Raise e => ingest self new_media st = (st2, Raise e)
      | Ok fs3 =>
          ingest_loop self new_media (before ++ [path])
                      (Mover.mk (move self) []) st
          = (mkstate fs3 (trash_cached st2) (confirm_trash_cached st2),
             Ok (Mover.mk (move self)
                   (Mover._journal m1 ++ [(PathOps.name path, dest)])%list))
      end
  end.
Proof.
  intros HI HB Hf.
  pose proof (ingest_loop_move _ _ _ _ _ _ _ HB) as Hm. cbn [Mover._move] in Hm.
  rewrite ingest_eq, HI, !ingest_loop_app, HB, !ingest_loop_cons, Hf, Hm.
  destruct (_decide self path new_media st1) as [st2 [dest|e]] eqn:HD.
  - destruct (move self path dest (fs st2)) as [fs3|e]; reflexivity.
  - pose proof (decide_raise _ _ _ _ _ _ HD) as ->. split; reflexivity.
Qed.
(** The loop comes to its end exactly along a journaled run. *)
Lemma ingest_loop_journaled (self : Importer) (new_media : Path)
  (paths : list Path) :
  forall (journal : list (string * Path)) (st st' : state) (mover' : Mover.t),
  ingest_loop self new_media paths (Mover.mk (move self) journal) st
  = (st', Ok mover')
  <-> exists records,
        journaled self new_media st paths records st'
        /\ mover' = Mover.mk (move self) (journal ++ records)%list.
Proof.
  induction paths as [|p paths IH]; intros journal st st' mover'.
  - split.
    + intros H. injection H as <- <-. exists []. rewrite app_nil_r.
      split; [constructor | reflexivity].
    + intros (records & HJ & ->). inversion HJ; subst.
      rewrite app_nil_r. reflexivity.
  - rewrite ingest_loop_cons. cbn [Mover._move Mover._journal]. split.
    + intros H. destruct (FS.is_file (fs st) p) eqn:Hf.
      * destruct (_decide self p new_media st) as [st1 [dest|e]] eqn:HD;
          [|discriminate].
        destruct (move self p dest (fs st1)) as [fs2|e] eqn:HM; [|discriminate].
        apply IH in H. destruct H as (records & HJ & ->).
        exists ((PathOps.name p, dest) :: records). split.
        -- eapply journaled_move; eauto.
        -- rewrite <- app_assoc. reflexivity.
      * apply IH in H. destruct H as (records & HJ & ->).
        exists records. split; [apply journaled_skip; assumption | reflexivity].
    + intros (records & HJ & ->).
      inversion HJ as [| ? ? ? ? ? Hf' HJ' | ? ? ? ? ? ? ? rs Hf' HD' HM' HJ'];
        subst.
      * rewrite Hf'. apply IH. exists records. auto.
      * rewrite Hf', HD', HM'. apply IH. exists rs.
        split; [assumption|]. rewrite <- app_assoc. reflexivity.
Qed.

(** C7, as the code has it.  [ingest] completes exactly along a run
    that passes over the entries that are no regular files and, for
    each regular file in the order of the enumeration, decides it in
    the state the earlier moves left, moves it, and journals its name
    with the decided destination; over a file system that lists each
    path once and with a move function that touches only its source,
    the manifest names the regular files of the staging directory, each
    once, in that order.  When, after the entries before it, deciding a
    regular file raises (the integrity fault, or an exception of
    [glob], [fromtimestamp] or [mkdir]) or moving it raises, [ingest]
    raises that exception, in the state the earlier moves left; a
    staging path that is no directory raises too; and [ingest] raises
    nothing else. *)
Theorem C7_manifest_or_exception (self : Importer) (new_media : Path)
  (st : state) :
  (forall st' manifest,
      ingest self new_media st = (st', Ok manifest)
      <-> exists paths,
            FS.iterdir (fs st) new_media = Ok paths
            /\ journaled self new_media st paths manifest st')
  /\ (NoDup (map fst (fs st)) -> moves_only_source (move self) ->
      forall st' manifest,
        ingest self new_media st = (st', Ok manifest) ->
        map fst manifest
        = map PathOps.name
              (filter (FS.is_file (fs st)) (FS.entries (fs st) new_media)))
  /\ (forall before path after records st1,
        FS.iterdir (fs st) new_media = Ok (before ++ path :: after)%list ->
        journaled self new_media st before records st1 ->
        FS.is_file (fs st1) path = true ->
        (forall st2 e,
            _decide self path new_media st1 = (st2, Raise e) ->
            st2 = st1 /\ ingest self new_media st = (st1, Raise e))
        /\ (forall st2 dest e,
              _decide self path new_media st1 = (st2, Ok dest) ->
              move self path dest (fs st2) = Raise e ->
              ingest self new_media st = (st2, Raise e)))
  /\ (FS.is_dir (fs st) new_media = false ->
      ingest self new_media st = (st, Raise (OSError new_media)))
  /\ (forall st' e,
        ingest self new_media st = (st', Raise e) ->
        (FS.is_dir (fs st) new_media = false /\ st' = st
         /\ e = OSError new_media)
        \/ (exists before path after records st1,
              FS.iterdir (fs st) new_media = Ok (before ++ path :: after)%list
              /\ journaled self new_media st before records st1
              /\ FS.is_file (fs st1) path = true
              /\ ((st' = st1
                   /\ _decide self path new_media st1 = (st1, Raise e))
                  \/ (exists dest,
                        _decide self path new_media st1 = (st', Ok dest)
                        /\ move self path dest (fs st') = Raise e)))).
Proof.
  split; [|split; [|split; [|split]]].
  - intros st' manifest. rewrite ingest_eq. split.
    + intros H. destruct (FS.iterdir (fs st) new_media) as [paths|e];
        [|discriminate].
      exists paths. split; [reflexivity|].
      destruct (ingest_loop self new_media paths (Mover.mk (move self) []) st)
        as [s [m|e]] eqn:HL; [|discriminate].
      injection H as <- <-.
      apply ingest_loop_journaled in HL. destruct HL as (records & HJ & ->).
      exact HJ.
    + intros (paths & -> & HJ).
      assert (HL : ingest_loop self new_media paths (Mover.mk (move self) []) st
                   = (st', Ok (Mover.mk (move self) manifest)))
        by (apply ingest_loop_journaled; exists manifest; auto).
      rewrite HL. reflexivity.
  - intros Hnd Hmv st' manifest H.
    apply (ingest_names self new_media st st' manifest Hnd Hmv H).
  - intros before path after records st1 HI HJ Hf.
    assert (HL : ingest_loop self new_media before (Mover.mk (move self) []) st
                 = (st1, Ok (Mover.mk (move self) records)))
      by (apply ingest_loop_journaled; exists records; auto).
    pose proof (ingest_at self new_media st st1 before after path _ HI HL Hf)
      as A.
    split.
    + intros st2 e HD. rewrite HD in A. exact A.
    + intros st2 dest e HD HM. rewrite HD, HM in A. exact A.
  - intros Hd. rewrite ingest_eq, iterdir_eq, Hd. reflexivity.
  - intros st' e H. rewrite ingest_eq, iterdir_eq in H.
    destruct (FS.is_dir (fs st) new_media) eqn:Hd.
    + right.
      destruct (ingest_loop self new_media (FS.entries (fs st) new_media)
                  (Mover.mk (move self) []) st) as [s [m|e']] eqn:HL;
        [discriminate|].
      injection H as <- <-.
      destruct (ingest_loop_raise _ _ _ _ _ _ _ HL)
        as (before & path & after & st1 & m1 & E & HB & Hf & R).
      pose proof HB as HB'.
      apply ingest_loop_journaled in HB'. destruct HB' as (records & HJ & _).
      exists before, path, after, records, st1.
      rewrite iterdir_eq, Hd, E. repeat split; auto.
    + left. injection H as <- <-. auto.
Qed.

Lemma C7_witness :
  ingest Sample.importer Sample.new Sample.two_raws
  = (Sample.two_raws, Raise (ValueError (Sample.file "x.jpg"))).
Proof.
  refine (proj2 (proj1 (proj1 (proj2 (proj2
    (C7_manifest_or_exception Sample.importer Sample.new Sample.two_raws)))
    [] (Sample.file "x.jpg") [Sample.file "x.dng"; Sample.file "X.DNG"] []
    Sample.two_raws eq_refl (journaled_end _ _ _) eq_refl)
    Sample.two_raws (ValueError (Sample.file "x.jpg")) eq_refl)).
Defined.

(** C7 as stated fails when a library call raises: with a regular file
    where the trash directory has to be, the staged [.DS_Store] makes
    [mkdir] raise, and [ingest] neither returns a manifest nor raises
    the integrity fault. *)
Lemma C7_counterexample :
  FS.is_file (fs Sample.trash_is_a_file) ["t"; "quarantine"; "trash"] = true
  /\ FS.iterdir (fs Sample.trash_is_a_file) Sample.new
     = Ok [Sample.file ".DS_Store"]
  /\ ingest Sample.importer Sample.new Sample.trash_is_a_file
     = (Sample.trash_is_a_file, Raise (OSError ["t"; "quarantine"; "trash"]))
  /\ (forall manifest,
        snd (ingest Sample.importer Sample.new Sample.trash_is_a_file)
        <> Ok manifest)
  /\ (forall path,
        snd (ingest Sample.importer Sample.new Sample.trash_is_a_file)
        <> Raise (ValueError path)).
Proof.
  split; [reflexivity|]. split; [reflexivity|].
  assert (E : ingest Sample.importer Sample.new Sample.trash_is_a_file
              = (Sample.trash_is_a_file,
                 Raise (OSError ["t"; "quarantine"; "trash"])))
    by (vm_compute; reflexivity).
  split; [exact E|]. rewrite E. split; intros ?; discriminate.
Qed.
(** ** An empty staging directory, and the two lazy directories *)

(** C9: when the staging directory holds no regular file, [ingest]
    returns the empty manifest and leaves the state, file system and
    cached directories, as it was (when the staging path is no
    directory, [iterdir] raises, and the state is left as it was too).
    Deciding one file changes the state in one of four ways: not at
    all, when it raises (the integrity fault, an invalid pattern of one
    of the globs, a time stamp [fromtimestamp] cannot hold, or what
    [mkdir] raises); by reading [trash], when the file goes under
    [<quarantine>/trash]; by reading [confirm_trash], when it goes under
    [<quarantine>/confirm/trash]; by making the directory of the
    destination, when it is placed.  Reading [trash] or [confirm_trash]
    makes the directory the first time and does nothing afterwards, nor
    when a regular file is in the way. *)
Theorem C9_empty_staging_and_lazy_directories (self : Importer)
  (new_media : Path) (st : state) :
  (FS.is_dir (fs st) new_media = true ->
   filter (FS.is_file (fs st)) (FS.entries (fs st) new_media) = [] ->
   ingest self new_media st = (st, Ok []))
  /\ (FS.is_dir (fs st) new_media = false ->
      ingest self new_media st = (st, Raise (OSError new_media)))
  /\ (forall path st' r,
        _decide self path new_media st = (st', r) ->
        (st' = st /\ exists e, r = Raise e /\ raised_by_decide self path (fs st) e)
        \/ (st' = after_trash self st
            /\ r = Ok ((quarantine self ++ ["trash"])%list // PathOps.name path))
        \/ (st' = after_confirm_trash self st
            /\ r = Ok ((quarantine self ++ ["confirm"; "trash"])%list
                       // Str.lstrip "." (PathOps.name path)))
        \/ (exists dest,
              _library_destination_for self (fs st) path = Ok dest
              /\ st' = mkstate (FS.made (fs st) (PathOps.parent dest))
                               (trash_cached st) (confirm_trash_cached st)
              /\ r = Ok dest))
  /\ after_trash self st
     = (if trash_cached st then st
        else if FS.blocked (fs st) (quarantine self ++ ["trash"])%list then st
        else mkstate (FS.made (fs st) (quarantine self ++ ["trash"])%list)
                     true (confirm_trash_cached st))
  /\ after_confirm_trash self st
     = (if confirm_trash_cached st then st
        else if FS.blocked (fs st) (quarantine self ++ ["confirm"; "trash"])%list
             then st
             else mkstate
                    (FS.made (fs st)
                             (quarantine self ++ ["confirm"; "trash"])%list)
                    (trash_cached st) true).
Proof.
  split; [|split; [|split; [|split]]].
  - intros Hd H.
    rewrite ingest_eq, iterdir_eq, Hd, ingest_loop_no_files by exact H.
    reflexivity.
  - intros Hd. rewrite ingest_eq, iterdir_eq, Hd. reflexivity.
  - intros path st' r H.
    destruct (decide_states _ _ _ _ _ _ H)
      as [A|[A|[A|(dest & D & _ & S & R)]]]; auto.
    right. right. right. exists dest. auto.
  - apply after_trash_eq.
  - apply after_confirm_trash_eq.
Qed.

Lemma C9_witness :
  ingest Sample.importer Sample.new Sample.no_files = (Sample.no_files, Ok []).
Proof.
  apply (proj1 (C9_empty_staging_and_lazy_directories Sample.importer Sample.new
                  Sample.no_files)).
  - reflexivity.
  - reflexivity.
Defined.
(** ** Dry runs *)

(** A loop that moves nothing only makes directories. *)
Lemma dry_loop_grows (self : Importer) (new_media : Path) (paths : list Path) :
  forall (journal : list (string * Path)) (st : state),
  grows (fs st)
        (fs (fst (ingest_loop self new_media paths
                    (Mover.mk (fun source destination fs => Ok fs) journal) st))).
Proof.
  induction paths as [|p paths IH]; intros journal st; [apply grows_refl|].
  rewrite ingest_loop_cons. destruct (FS.is_file (fs st) p); [|apply IH].
  destruct (_decide self p new_media st) as [st1 [dest|e]] eqn:HD.
  - eapply grows_trans; [apply (decide_grows _ _ _ _ _ _ HD)|].
    cbn [Mover._move Mover._journal].
    apply (IH _ (mkstate (fs st1) (trash_cached st1) (confirm_trash_cached st1))).
  - apply (decide_grows _ _ _ _ _ _ HD).
Qed.

(** C8 on three staged files of today, [IMG_foo_bar.jpg],
    [12345678.jpg] and [.DS_Store], enumerated in that order.  The real
    ingest moves the first into the quarantine, where the glob for the
    second then finds one entry: the second goes to the trash.  The dry
    run finds the quarantine empty and answers the quarantine for it.
    And the dry run makes the trash directory.  On a staged file named
    [...] the dry run returns a manifest, with the directory
    [<quarantine>/confirm/trash] as the destination, where the real
    ingest raises, the move onto a directory being refused. *)
Theorem C8_dry_run_diverges :
  let st := Sample.staged ["IMG_foo_bar.jpg"; "12345678.jpg"; ".DS_Store"]
                          Sample.now in
  let dots := Sample.staged ["..."] Sample.now in
  snd (ingest Sample.dry Sample.new st)
  = Ok [("IMG_foo_bar.jpg", ["t"; "quarantine"; "IMG_foo_bar.jpg"]);
        ("12345678.jpg", ["t"; "quarantine"; "12345678.jpg"]);
        (".DS_Store", ["t"; "quarantine"; "trash"; ".DS_Store"])]
  /\ snd (ingest Sample.importer Sample.new st)
     = Ok [("IMG_foo_bar.jpg", ["t"; "quarantine"; "IMG_foo_bar.jpg"]);
           ("12345678.jpg", ["t"; "quarantine"; "trash"; "12345678.jpg"]);
           (".DS_Store", ["t"; "quarantine"; "trash"; ".DS_Store"])]
  /\ snd (ingest Sample.dry Sample.new st)
     <> snd (ingest Sample.importer Sample.new st)
  /\ FS.exists_ (fs st) ["t"; "quarantine"; "trash"] = false
  /\ FS.exists_ (fs (fst (ingest Sample.dry Sample.new st)))
                ["t"; "quarantine"; "trash"] = true
  /\ fs (fst (ingest Sample.dry Sample.new st)) <> fs st
  /\ snd (ingest Sample.dry Sample.new dots)
     = Ok [("...", ["t"; "quarantine"; "confirm"; "trash"])]
  /\ snd (ingest Sample.importer Sample.new dots)
     = Raise (OSError ["t"; "quarantine"; "confirm"; "trash"]).
Proof.
  repeat split; try reflexivity; vm_compute; discriminate.
Qed.
(** * Further properties of the importer *)

(** ** Files the duplicate blocks do not look at *)

Lemma plain_spec (path : Path) :
  plain path = true ->
  Str.startswith "." (PathOps.name path) = false
  /\ jpeg_suffix (PathOps.suffix path) = false
  /\ Str.isdigit (copy_number path) = false.
Proof.
  unfold plain. rewrite !andb_true_iff, !negb_true_iff. tauto.
Qed.

Lemma plain_unique (self : Importer) (path new_media : Path) (st : state) :
  plain path = true -> unique self path new_media st.
Proof.
  intros H. destruct (plain_spec path H) as (_ & Hj & Hd). split.
  - rewrite prefer_raw_eq, Hj. reflexivity.
  - rewrite numbered_copy_eq, Hd. reflexivity.
Qed.

(** X1: a file that is no dotfile, has no [.jpg]/[.jpeg] extension and
    no digits after the last tilde of its stem is never trashed and
    never raises the integrity fault: whatever the staging directory,
    the library and the quarantine hold, [_decide] computes the
    destination, makes its directory and returns it.  It raises what
    computing the destination raises (a modification time [datetime]
    cannot hold) and what [mkdir] raises (a regular file in the way of
    the directory), and nothing else. *)
Theorem plain_file_is_placed (self : Importer) (path new_media : Path)
  (st : state) :
  plain path = true ->
  _decide self path new_media st
  = match _library_destination_for self (fs st) path with
    | Raise e => (st, Raise e)
    | Ok dest =>
        if FS.blocked (fs st) (PathOps.parent dest)
        then (st, Raise (OSError (PathOps.parent dest)))
        else (mkstate (FS.made (fs st) (PathOps.parent dest))
                      (trash_cached st) (confirm_trash_cached st),
              Ok dest)
    end.
Proof.
  intros H. apply decide_unique.
  - apply (plain_spec path H).
  - apply plain_unique; exact H.
Qed.

Lemma plain_file_is_placed_witness :
  let st := Sample.staged
              ["PXL_20240101_123456789.DNG"; "PXL_20240101_123456789.JPG"]
              Sample.now in
  _decide Sample.importer (Sample.file "PXL_20240101_123456789.DNG") Sample.new st
  = (mkstate (FS.made (fs st) ["t"; "library"; "2024"; "01"; "01"]) false false,
     Ok ["t"; "library"; "2024"; "01"; "01"; "PXL_20240101_123456789.DNG"]).
Proof.
  intros st.
  apply (plain_file_is_placed Sample.importer
           (Sample.file "PXL_20240101_123456789.DNG") Sample.new st).
  reflexivity.
Defined.

Lemma harmless_decide_raise (self : Importer) (path new_media : Path)
  (st st' : state) (e : exn) :
  harmless path = true ->
  _decide self path new_media st = (st', Raise e) ->
  (exists d, e = OSError d) \/ (exists m, e = OutOfRange m).
Proof.
  unfold harmless. intros H HD.
  destruct (Str.startswith "." (PathOps.name path)) eqn:Hdot.
  - rewrite decide_eq, Hdot in HD. destruct (String.eqb _ _).
    + destruct (trashed_cases self path st) as [T|T]; rewrite T in HD;
        [discriminate | injection HD as _ <-; eauto].
    + destruct (confirm_trashed_cases self path st) as [T|T]; rewrite T in HD;
        [discriminate | injection HD as _ <-; eauto].
  - simpl in H.
    rewrite (decide_unique self path new_media st Hdot
               (plain_unique self path new_media st H)) in HD.
    unfold place in HD.
    destruct (_library_destination_for self (fs st) path) as [dest|e'] eqn:D.
    + destruct (FS.blocked _ _); [injection HD as _ <-; eauto | discriminate].
    + injection HD as _ <-.
      destruct (library_destination_raise _ _ _ _ D) as (m & _ & _ & ->). eauto.
Qed.

(** X2: when every entry of the staging directory is a dotfile or a
    file the duplicate blocks do not look at, and the move function
    raises nothing but what the operating system raises, [ingest] never
    raises the integrity fault nor an invalid pattern: whatever it
    raises comes from the operating system ([iterdir], [mkdir], the
    move) or from a modification time [datetime] cannot hold. *)
Theorem ingest_of_harmless_files_raises_no_fault (self : Importer)
  (new_media : Path) (st st' : state) (e : exn) :
  (forall p, In p (FS.entries (fs st) new_media) -> harmless p = true) ->
  (forall src dst fs e', move self src dst fs = Raise e' ->
                         exists d, e' = OSError d) ->
  ingest self new_media st = (st', Raise e) ->
  (exists d, e = OSError d) \/ (exists m, e = OutOfRange m).
Proof.
  intros Hh Hmv H. rewrite ingest_eq, iterdir_eq in H.
  destruct (FS.is_dir (fs st) new_media); [|injection H as _ <-; eauto].
  destruct (ingest_loop self new_media (FS.entries (fs st) new_media)
              (Mover.mk (move self) []) st) as [s [m|e']] eqn:HL;
    [discriminate|].
  injection H as _ <-.
  destruct (ingest_loop_raise _ _ _ _ _ _ _ HL)
    as (before & path & after & st1 & m1 & E & _ & _ & R).
  assert (Hp : harmless path = true).
  { apply Hh. rewrite E. apply in_or_app. right. left. reflexivity. }
  destruct R as [[_ HD]|(dest & _ & HM)].
  - exact (harmless_decide_raise _ _ _ _ _ _ Hp HD).
  - left. exact (Hmv _ _ _ _ HM).
Qed.

Lemma ingest_of_harmless_files_raises_no_fault_witness :
  (exists d, OSError ["t"; "quarantine"; "trash"] = OSError d)
  \/ (exists m, OSError ["t"; "quarantine"; "trash"] = OutOfRange m).
Proof.
  apply (ingest_of_harmless_files_raises_no_fault Sample.importer Sample.new
           Sample.trash_is_a_file Sample.trash_is_a_file
           (OSError ["t"; "quarantine"; "trash"])).
  - intros p Hp. vm_compute in Hp.
    repeat (destruct Hp as [<-|Hp]; [reflexivity|]). contradiction.
  - intros src dst fs e' H. unfold Sample.importer, Importer_new, move in H.
    unfold FS.rename in H. destruct (FS.lookup fs src) as [[m|]|].
    + destruct (_ || _); [injection H as <-; eauto | discriminate].
    + injection H as <-; eauto.
    + injection H as <-; eauto.
  - vm_compute. reflexivity.
Defined.

(** ** Where a file can go *)






Lemma lstrip_all (c : ascii) (s : string) :
  Str.all_chars (fun a => Ascii.eqb a c) s = true -> Str.lstrip c s = "".
Proof.
  induction s as [|a s IH]; simpl; intros H; [reflexivity|].
  apply andb_true_iff in H as [Ha Hs]. rewrite Ha. auto.
Qed.

(** X4: a file whose name is made of dots only (three or more, for a
    directory entry) is sent to the directory [<quarantine>/confirm/trash]
    itself, not to a path inside it: nothing is left of the name once
    its leading dots are stripped.  The one other outcome is the
    exception of [mkdir] when that directory is not cached and a regular
    file is in its way. *)
Theorem dots_only_name_targets_directory (self : Importer)
  (path new_media : Path) (st : state) :
  PathOps.name path <> "" ->
  Str.all_chars (fun a => Ascii.eqb a ".") (PathOps.name path) = true ->
  _decide self path new_media st
  = if confirm_trash_cached st
       || negb (FS.blocked (fs st) (quarantine self ++ ["confirm"; "trash"])%list)
    then (after_confirm_trash self st,
          Ok (quarantine self ++ ["confirm"; "trash"])%list)
    else (st, Raise (OSError (quarantine self ++ ["confirm"; "trash"])%list)).
Proof.
  intros Hne Hall. rewrite decide_eq. unfold confirm_trashed.
  rewrite (lstrip_all _ _ Hall).
  destruct (PathOps.name path) as [|a n]; [congruence|].
  simpl in Hall. apply andb_true_iff in Hall as [Ha _].
  cbn [Str.startswith]. rewrite Ha. cbn [String.eqb].
  unfold confirm_trash_ok. rewrite confirm_trash_dir_eq.
  unfold PathOps.joinpath, PathOps.segments.
  simpl. rewrite app_nil_r. reflexivity.
Qed.

Lemma dots_only_name_targets_directory_witness :
  _decide Sample.importer (Sample.file "...") Sample.new
          (Sample.staged ["..."] Sample.now)
  = (after_confirm_trash Sample.importer (Sample.staged ["..."] Sample.now),
     Ok ["t"; "quarantine"; "confirm"; "trash"]).
Proof.
  apply (dots_only_name_targets_directory Sample.importer (Sample.file "...")
           Sample.new (Sample.staged ["..."] Sample.now)).
  - discriminate.
  - reflexivity.
Defined.

(** ** Stems made of digits *)

Lemma glob_star (fs : FS.t) (d : Path) (cs : bool) :
  FS.glob fs d "*" cs = Ok (FS.entries fs d).
Proof.
  unfold FS.glob. cbn [String.eqb Ascii.eqb Bool.eqb FS.has_double_star].
  f_equal. rewrite <- (filter_true (FS.entries fs d)) at 2.
  apply filter_ext. intros p. apply (matches_star_end cs).
Qed.

(** X5: a stem made of digits, without a tilde, is taken for the number
    of a numbered copy whose original stem is empty.  Such a file, when
    it is no dotfile, the RAW-preference block lets it through and the
    staging directory has no entry named like its bare extension, goes
    to the trash when the directory of its computed destination holds
    exactly one entry of any name, raises the error when that directory
    holds more, and goes to its computed destination only when the
    directory is empty or missing.  What computing the destination
    raises, and what [mkdir] raises for the trash or for the directory
    of the destination, goes to the caller. *)
Theorem digit_stem_is_numbered_copy (self : Importer) (path new_media : Path)
  (st : state) :
  Str.startswith "." (PathOps.name path) = false ->
  Str.contains "~" (PathOps.stem path) = false ->
  Str.isdigit (PathOps.stem path) = true ->
  prefer_raw self path new_media st = (st, Ok None) ->
  FS.exists_ (fs st) (new_media // PathOps.suffix path) = false ->
  (forall e, _library_destination_for self (fs st) path = Raise e ->
             _decide self path new_media st = (st, Raise e))
  /\ (forall maybe,
        _library_destination_for self (fs st) path = Ok maybe ->
        let entries := FS.entries (fs st) (PathOps.parent maybe) in
        let to_trash :=
          if trash_cached st || negb (FS.blocked (fs st) (trash_dir self))
          then (after_trash self st, Ok (trash_dir self // PathOps.name path))
          else (st, Raise (OSError (trash_dir self))) in
        (List.length entries = 1%nat ->
         _decide self path new_media st = to_trash)
        /\ ((1 < List.length entries)%nat ->
            _decide self path new_media st = (st, Raise (ValueError path)))
        /\ (List.length entries = 0%nat ->
            _decide self path new_media st
            = if FS.blocked (fs st) (PathOps.parent maybe)
              then (st, Raise (OSError (PathOps.parent maybe)))
              else (mkstate (FS.made (fs st) (PathOps.parent maybe))
                            (trash_cached st) (confirm_trash_cached st),
                    Ok maybe))).
Proof.
  intros Hdot Htilde Hdig Hraw Hex.
  assert (Hs : copy_stem path = "" /\ copy_number path = PathOps.stem path).
  { unfold copy_stem, copy_number, Str.rpartition_head, Str.rpartition_tail.
    rewrite (rpartition_none _ _ Htilde). auto. }
  destruct Hs as [Hs Hn].
  assert (E : numbered_copy self path new_media st =
              match _library_destination_for self (fs st) path with
              | Raise e => (st, Raise e)
              | Ok maybe =>
                  let entries := FS.entries (fs st) (PathOps.parent maybe) in
                  if (List.length entries =? 1)%nat
                  then found (trashed self path st)
                  else if negb (List.length entries =? 0)%nat
                       then (st, Raise (ValueError path)) else (st, Ok None)
              end).
  { rewrite numbered_copy_eq, Hn, Hdig. unfold original_of, original_glob.
    rewrite Hs. cbn [append]. rewrite Hex.
    destruct (_library_destination_for self (fs st) path); [|reflexivity].
    rewrite glob_star. reflexivity. }
  rewrite decide_eq, Hdot, Hraw, E. split.
  - intros e ->. reflexivity.
  - intros maybe D. rewrite D. cbv zeta. repeat split; intros H.
    + rewrite H. cbn [Nat.eqb]. unfold found, trashed, trash_ok.
      destruct (trash_cached st || _); reflexivity.
    + destruct (Nat.eqb_spec (List.length (FS.entries (fs st) (PathOps.parent maybe))) 1);
        [lia|].
      destruct (Nat.eqb_spec (List.length (FS.entries (fs st) (PathOps.parent maybe))) 0);
        [lia | reflexivity].
    + rewrite H. cbn [Nat.eqb negb]. unfold place. rewrite D. reflexivity.
Qed.

Lemma digit_stem_is_numbered_copy_witness :
  _decide Sample.importer (Sample.file "12345678.mp4") Sample.new
          Sample.digits_beside_quarantined
  = (after_trash Sample.importer Sample.digits_beside_quarantined,
     Ok ["t"; "quarantine"; "trash"; "12345678.mp4"]).
Proof.
  refine (proj1 (proj2 (digit_stem_is_numbered_copy Sample.importer
            (Sample.file "12345678.mp4") Sample.new
            Sample.digits_beside_quarantined eq_refl eq_refl eq_refl eq_refl
            eq_refl) ["t"; "quarantine"; "12345678.mp4"] eq_refl) eq_refl).
Defined.

(** ** A date in the name and the modification time *)

(** X6: for a name with a date field (a second underscore-separated part
    made of digits) the computed destination is the same in every file
    system and under every trust cutoff: neither the modification time
    nor the newest trusted one is looked at. *)
Theorem dated_name_ignores_mtime (self : Importer) (fs1 fs2 : FS.t)
  (cutoff : Z) (path : Path) :
  date_part (PathOps.name path) <> None ->
  _library_destination_for self fs1 path
  = _library_destination_for
      (mkImporter (library self) (quarantine self) (move self) cutoff) fs2 path.
Proof.
  intros H. rewrite !library_destination_cases.
  destruct (date_part (PathOps.name path)); [reflexivity | congruence].
Qed.

Lemma dated_name_ignores_mtime_witness :
  _library_destination_for Sample.importer
    (fs (Sample.staged ["PXL_20240101_1.MP4"] Sample.now))
    (Sample.file "PXL_20240101_1.MP4")
  = _library_destination_for
      (mkImporter (library Sample.importer) (quarantine Sample.importer)
                  (move Sample.importer) 0)
      [] (Sample.file "PXL_20240101_1.MP4").
Proof.
  apply (dated_name_ignores_mtime Sample.importer
           (fs (Sample.staged ["PXL_20240101_1.MP4"] Sample.now)) [] 0
           (Sample.file "PXL_20240101_1.MP4")).
  discriminate.
Defined.

(** ** The names in a manifest *)

Lemma entries_child (fs : FS.t) (d p : Path) :
  In p (FS.entries fs d) -> p = (d ++ [PathOps.name p])%list.
Proof.
  unfold FS.entries. destruct (FS.is_dir fs d); [|contradiction].
  intros H. apply filter_In in H as [_ H].
  apply andb_true_iff in H as [Hr Hp]. apply path_eqb_eq in Hp.
  destruct p as [|a p]; [discriminate|].
  rewrite <- Hp. apply app_removelast_last. discriminate.
Qed.

Lemma entries_names_nodup (fs : FS.t) (d : Path) (f : Path -> bool) :
  NoDup (map fst fs) ->
  NoDup (map PathOps.name (filter f (FS.entries fs d))).
Proof.
  intros H. apply NoDup_map_NoDup_ForallPairs.
  - intros p q Hp Hq E. apply filter_In in Hp as [Hp _], Hq as [Hq _].
    rewrite (entries_child _ _ _ Hp), (entries_child _ _ _ Hq), E. reflexivity.
  - apply NoDup_filter. apply entries_nodup. exact H.
Qed.

(** X7: over a file system that lists each path once, and with a move
    function that touches no entry but its source, the manifest of an
    [ingest] that completes names no file twice. *)
Theorem manifest_names_distinct (self : Importer) (new_media : Path)
  (st st' : state) (manifest : list (string * Path)) :
  NoDup (map fst (fs st)) ->
  moves_only_source (move self) ->
  ingest self new_media st = (st', Ok manifest) ->
  NoDup (map fst manifest).
Proof.
  intros Hnd Hmv H.
  destruct (ingest_names self new_media st st' manifest Hnd Hmv H) as [_ ->].
  apply entries_names_nodup. exact Hnd.
Qed.

Lemma manifest_names_distinct_witness :
  NoDup (map fst
           [("a_20240101_1.mp4",
             ["t"; "library"; "2024"; "01"; "01"; "a_20240101_1.mp4"]);
            ("b.txt", ["t"; "quarantine"; "b.txt"])]).
Proof.
  apply (manifest_names_distinct Sample.importer Sample.new
           (Sample.staged ["a_20240101_1.mp4"; "b.txt"] Sample.now)
           (fst (ingest Sample.importer Sample.new
                   (Sample.staged ["a_20240101_1.mp4"; "b.txt"] Sample.now)))).
  - apply distinct_nodup. reflexivity.
  - exact rename_moves_only_source.
  - vm_compute. reflexivity.
Defined.
(** ** The length of a date field *)

Lemma month_alts_length (r r' : string) (m : Z) :
  In (m, r') (Date.month_alts r) ->
  String.length r = S (String.length r')
  \/ String.length r = S (S (String.length r')).
Proof.
  unfold Date.month_alts. destruct r as [|a [|b r]]; [contradiction| |].
  - destruct (Str.between 49 57 a); [|contradiction].
    intros [E|[]]. injection E as _ <-. auto.
  - intros H. repeat (apply in_app_or in H as [H|H]);
      match type of H with
      | In _ (if ?c then _ else _) => destruct c; [|contradiction]
      end; destruct H as [E|[]]; injection E as _ <-; auto.
Qed.

Lemma day_alts_length (r r' : string) (d : Z) :
  In (d, r') (Date.day_alts r) ->
  String.length r = S (String.length r')
  \/ String.length r = S (S (String.length r')).
Proof.
  unfold Date.day_alts. destruct r as [|a [|b r]]; [contradiction| |].
  - destruct (Str.between 49 57 a); [|contradiction].
    intros [E|[]]. injection E as _ <-. auto.
  - intros H. repeat (apply in_app_or in H as [H|H]);
      match type of H with
      | In _ (if ?c then _ else _) => destruct c; [|contradiction]
      end; destruct H as [E|[]]; injection E as _ <-; auto.
Qed.

Lemma hd_error_in {A} (l : list A) (x : A) : hd_error l = Some x -> In x l.
Proof. destruct l; simpl; [discriminate|]. intros E; injection E; auto. Qed.

Lemma month_day_match_length (r rest : string) (m d : Z) :
  Date.month_day_match r = Some (m, d, rest) ->
  (String.length rest + 2 <= String.length r <= String.length rest + 4)%nat.
Proof.
  unfold Date.month_day_match. intros H. apply hd_error_in in H.
  apply in_flat_map in H as ([m' r1] & Hm & H).
  apply in_map_iff in H as ([d' r2] & E & Hd). simpl in E, Hd.
  injection E as _ _ <-.
  pose proof (month_alts_length _ _ _ Hm). pose proof (day_alts_length _ _ _ Hd).
  lia.
Qed.

Lemma strptime_length (s : string) (dt : Date.date) :
  Date.strptime_Ymd s = Some dt ->
  (6 <= String.length s <= 8)%nat /\ Date.valid dt = true.
Proof.
  unfold Date.strptime_Ymd, Date.first_match.
  destruct s as [|a [|b [|c [|d r]]]]; try discriminate.
  destruct (_ && _); [|discriminate].
  destruct (Date.month_day_match r) as [[[m d'] rest]|] eqn:E; [|discriminate].
  destruct rest; [|discriminate].
  destruct (Date.valid _) eqn:V; [|discriminate].
  intros H. injection H as <-.
  pose proof (month_day_match_length _ _ _ _ E). simpl in *. split; [lia | exact V].
Qed.

(** X8: a date field is read as a date only when it has six to eight
    characters, and then as a date of the calendar with a year from 1 to
    9999; a file whose date field is shorter or longer (a counter, a
    time stamp in seconds) is computed to go to [<quarantine>/<name>],
    whatever its modification time. *)
Theorem date_field_length (self : Importer) (fs : FS.t) (path : Path)
  (digits : string) :
  entry_name (PathOps.name path) = true ->
  date_part (PathOps.name path) = Some digits ->
  (forall dt, Date.strptime_Ymd digits = Some dt ->
              (6 <= String.length digits <= 8)%nat
              /\ Date.valid dt = true /\ 1 <= Date.year dt <= 9999)
  /\ ((String.length digits < 6 \/ 8 < String.length digits)%nat ->
      _library_destination_for self fs path
      = Ok (quarantine self ++ [PathOps.name path])%list).
Proof.
  intros Hn Hd. split.
  - intros dt H. destruct (strptime_length _ _ H) as [L V].
    repeat split; try apply L; try exact V; apply (valid_bounds dt V).
  - intros L. rewrite library_destination_cases, Hd.
    destruct (Date.strptime_Ymd digits) as [dt|] eqn:E.
    + destruct (strptime_length _ _ E) as [L' _]. lia.
    + rewrite joinpath_entry by exact Hn. reflexivity.
Qed.

Lemma date_field_length_witness :
  _library_destination_for Sample.importer [] (Sample.file "IMG_1700000000_7.mp4")
  = Ok ["t"; "quarantine"; "IMG_1700000000_7.mp4"].
Proof.
  refine (proj2 (date_field_length Sample.importer []
                   (Sample.file "IMG_1700000000_7.mp4") "1700000000" _ _) _).
  - reflexivity.
  - reflexivity.
  - right. vm_compute. lia.
Defined.

(** ** A JPEG beside its RAW file *)



(** ** The move that follows a decision *)

















(** ** Batches decided by the names alone *)

Lemma rename_raises_os_errors : raises_os_errors FS.rename.
Proof.
  intros src dst fs e H. unfold FS.rename in H.
  destruct (FS.lookup fs src) as [[m|]|].
  - destruct (_ || _); [injection H as <-; eauto | discriminate].
  - injection H as <-; eauto.
  - injection H as <-; eauto.
Qed.


(** With a date field in the name the destination is computed without
    the file system, and without an exception. *)
Lemma dated_any_fs (self : Importer) (fs : FS.t) (path : Path) :
  date_part (PathOps.name path) <> None ->
  exists dest, _library_destination_for self fs path = Ok dest
               /\ _library_destination_for self [] path = Ok dest.
Proof.
  intros H. rewrite !library_destination_cases.
  destruct (date_part (PathOps.name path)) as [digits|]; [|congruence].
  destruct (Date.strptime_Ymd digits); eauto.
Qed.

Lemma decide_by_name (self : Importer) (path new_media : Path) (st st' : state)
  (r : result Path) :
  decided_by_name path = true ->
  _decide self path new_media st = (st', r) ->
  r = Ok (destination_by_name self path) \/ exists d, r = Raise (OSError d).
Proof.
  unfold decided_by_name, destination_by_name. intros H HD.
  destruct (Str.startswith "." (PathOps.name path)) eqn:Hdot.
  - rewrite decide_eq, Hdot in HD. destruct (String.eqb _ _).
    + destruct (trashed_cases self path st) as [T|T]; rewrite T in HD;
        injection HD as _ <-; eauto.
    + destruct (confirm_trashed_cases self path st) as [T|T]; rewrite T in HD;
        injection HD as _ <-; eauto.
  - cbn [orb] in H. apply andb_true_iff in H as [Hp Hd].
    rewrite (decide_unique self path new_media st Hdot
               (plain_unique self path new_media st Hp)) in HD.
    destruct (dated_any_fs self (fs st) path) as (dest & D & D0).
    { destruct (date_part (PathOps.name path)); [discriminate | discriminate]. }
    rewrite (place_at self path dest st D) in HD. rewrite D0.
    destruct (FS.blocked _ _); injection HD as _ <-; eauto.
Qed.

Lemma by_name_loop (self : Importer) (new_media : Path) (fs0 : FS.t)
  (paths : list Path) :
  forall (mover : Mover.t) (st st' : state) (r : result Mover.t),
  moves_only_source (Mover._move mover) ->
  raises_os_errors (Mover._move mover) ->
  NoDup paths ->
  (forall q, In q paths -> kept fs0 (fs st) q) ->
  (forall q, In q paths -> decided_by_name q = true) ->
  ingest_loop self new_media paths mover st = (st', r) ->
  (exists mover',
      r = Ok mover'
      /\ Mover._journal mover'
         = (Mover._journal mover
            ++ map (fun p => (PathOps.name p, destination_by_name self p))
                   (filter (FS.is_file fs0) paths))%list)
  \/ exists d, r = Raise (OSError d).
Proof.
  induction paths as [|p paths IH]; intros mover st st' r Hmv Hos Hnd Hk Hn H.
  - injection H as _ <-. left. exists mover. rewrite app_nil_r. auto.
  - rewrite ingest_loop_cons in H. inversion Hnd as [|? ? Hnotin Hnd']; subst.
    cbn [filter].
    rewrite <- (kept_is_file fs0 (fs st) p) by (apply Hk; left; reflexivity).
    assert (Hn' : forall q, In q paths -> decided_by_name q = true)
      by (intros; apply Hn; right; assumption).
    destruct (FS.is_file (fs st) p).
    + destruct (_decide self p new_media st) as [st1 r1] eqn:HD.
      destruct (decide_by_name self p new_media st st1 r1
                  (Hn p (or_introl eq_refl)) HD) as [->|[d ->]].
      * destruct (Mover._move mover p (destination_by_name self p) (fs st1))
          as [fs2|e] eqn:HM.
        -- assert (Hk' : forall q, In q paths ->
                     kept fs0 (fs (mkstate fs2 (trash_cached st1)
                                           (confirm_trash_cached st1))) q).
           { intros q Hq. cbn [fs].
             apply (kept_step self (Mover._move mover) p new_media
                      (destination_by_name self p) q fs0 fs2 st st1 Hmv HD HM);
               [intros ->; contradiction|].
             apply Hk. right. exact Hq. }
           destruct (IH (Mover.mk (Mover._move mover)
                           (Mover._journal mover
                            ++ [(PathOps.name p, destination_by_name self p)])%list)
                        _ _ _ Hmv Hos Hnd' Hk' Hn' H)
             as [(mover' & -> & HJ)|[d ->]]; [|eauto].
           left. exists mover'. split; [reflexivity|].
           rewrite HJ. cbn [Mover._journal map]. rewrite <- app_assoc.
           reflexivity.
        -- injection H as _ <-. right.
           destruct (Hos _ _ _ _ HM) as [d ->]. eauto.
      * injection H as _ <-. eauto.
    + apply (IH mover st st' r); auto. intros q Hq. apply Hk. right. exact Hq.
Qed.

Lemma by_name_ingest (self : Importer) (new_media : Path) (st st' : state)
  (r : result (list (string * Path))) :
  NoDup (map fst (fs st)) ->
  moves_only_source (move self) ->
  raises_os_errors (move self) ->
  (forall p, In p (FS.entries (fs st) new_media) -> decided_by_name p = true) ->
  ingest self new_media st = (st', r) ->
  r = Ok (map (fun p => (PathOps.name p, destination_by_name self p))
              (filter (FS.is_file (fs st)) (FS.entries (fs st) new_media)))
  \/ exists d, r = Raise (OSError d).
Proof.
  intros Hnd Hmv Hos Hn H. rewrite ingest_eq, iterdir_eq in H.
  destruct (FS.is_dir (fs st) new_media); [|injection H as _ <-; eauto].
  destruct (ingest_loop self new_media (FS.entries (fs st) new_media)
              (Mover.mk (move self) []) st) as [s r'] eqn:HL.
  destruct (by_name_loop self new_media (fs st) (FS.entries (fs st) new_media)
              (Mover.mk (move self) []) st s r' Hmv Hos (entries_nodup _ _ Hnd)
              (fun q Hq => kept_start _ _ (entries_in _ _ _ Hq)) Hn HL)
    as [(mover' & -> & HJ)|[d ->]].
  - injection H as _ <-. left. rewrite HJ. reflexivity.
  - injection H as _ <-. eauto.
Qed.

(** X11: when every entry of the staging directory is a dotfile or a
    plain file with a date field, and the move function raises nothing
    but what the operating system raises, the manifest of an [ingest]
    that completes can be read off the names: one record for each
    regular file, in the order of the enumeration, with the destination
    its name alone gives, whatever the library and the quarantine hold;
    and an [ingest] that does not complete raises what the operating
    system raised (for [iterdir], [mkdir] or the move). *)
Theorem manifest_by_names (self : Importer) (new_media : Path) (st : state) :
  NoDup (map fst (fs st)) ->
  moves_only_source (move self) ->
  raises_os_errors (move self) ->
  (forall p, In p (FS.entries (fs st) new_media) -> decided_by_name p = true) ->
  (forall st' manifest,
      ingest self new_media st = (st', Ok manifest) ->
      manifest
      = map (fun p => (PathOps.name p, destination_by_name self p))
            (filter (FS.is_file (fs st)) (FS.entries (fs st) new_media)))
  /\ (forall st' e,
        ingest self new_media st = (st', Raise e) -> exists d, e = OSError d).
Proof.
  intros Hnd Hmv Hos Hn. split.
  - intros st' manifest H.
    destruct (by_name_ingest self new_media st st' _ Hnd Hmv Hos Hn H)
      as [E|[d E]]; [injection E as ->; reflexivity | discriminate].
  - intros st' e H.
    destruct (by_name_ingest self new_media st st' _ Hnd Hmv Hos Hn H)
      as [E|[d E]]; [discriminate | injection E as ->; eauto].
Qed.

Lemma manifest_by_names_witness :
  let st := Sample.staged [".DS_Store"; "PXL_20240115_101010101.MP4"]
                          Sample.now in
  [(".DS_Store", ["t"; "quarantine"; "trash"; ".DS_Store"]);
   ("PXL_20240115_101010101.MP4",
    ["t"; "library"; "2024"; "01"; "15"; "PXL_20240115_101010101.MP4"])]
  = map (fun p => (PathOps.name p, destination_by_name Sample.importer p))
        (filter (FS.is_file (fs st)) (FS.entries (fs st) Sample.new)).
Proof.
  intros st.
  refine (proj1 (manifest_by_names Sample.importer Sample.new st _ _ _ _)
            (fst (ingest Sample.importer Sample.new st)) _ _).
  - apply distinct_nodup. reflexivity.
  - exact rename_moves_only_source.
  - exact rename_raises_os_errors.
  - intros p Hp. vm_compute in Hp.
    repeat (destruct Hp as [<-|Hp]; [reflexivity|]). contradiction.
  - vm_compute. reflexivity.
Defined.



(** ** The directories of a dated destination *)

Lemma between_decimal (lo hi : N) (c : ascii) :
  (48 <= lo)%N -> (hi <= 57)%N ->
  Str.between lo hi c = true -> Str.is_decimal c = true.
Proof.
  unfold Str.is_decimal, Str.between. intros Hlo Hhi H.
  apply andb_true_iff in H as [H1 H2]. apply N.leb_le in H1, H2.
  apply andb_true_iff. split; apply N.leb_le; lia.
Qed.

Ltac digit_or_space_tac :=
  unfold digit_or_space;
  match goal with
  | H : Ascii.eqb ?a _ = true |- context [?a] =>
      apply Ascii.eqb_eq in H; subst a; reflexivity
  | H : Str.between ?lo ?hi ?a = true |- context [?a] =>
      rewrite (between_decimal lo hi a ltac:(lia) ltac:(lia) H); reflexivity
  | H : Str.is_decimal ?a = true |- context [?a] => rewrite H; reflexivity
  end.

Ltac alt_case H :=
  match type of H with
  | In _ (if (?x && ?y) then _ else _) =>
      let C1 := fresh "C" in
      let C2 := fresh "C" in
      destruct x eqn:C1; cbn [andb] in H; [|contradiction];
      destruct y eqn:C2; [|contradiction]
  | In _ (if ?c then _ else _) =>
      let C := fresh "C" in
      destruct c eqn:C; [|contradiction]
  end;
  destruct H as [H|[]]; injection H as _ <-.

Lemma month_alts_chars (r r' : string) (m : Z) :
  In (m, r') (Date.month_alts r) ->
  exists pre, r = pre ++ r' /\ Str.all_chars digit_or_space pre = true.
Proof.
  unfold Date.month_alts. destruct r as [|a [|b r]]; [contradiction| |].
  - intros H. alt_case H. exists (String a ""). split; [reflexivity|].
    simpl. rewrite andb_true_r. digit_or_space_tac.
  - intros H. repeat (apply in_app_or in H as [H|H]); alt_case H.
    + exists (String a (String b "")). split; [reflexivity|]. simpl.
      rewrite andb_true_r. apply andb_true_iff. split; digit_or_space_tac.
    + exists (String a (String b "")). split; [reflexivity|]. simpl.
      rewrite andb_true_r. apply andb_true_iff. split; digit_or_space_tac.
    + exists (String a ""). split; [reflexivity|]. simpl.
      rewrite andb_true_r. digit_or_space_tac.
Qed.

Lemma day_alts_chars (r r' : string) (d : Z) :
  In (d, r') (Date.day_alts r) ->
  exists pre, r = pre ++ r' /\ Str.all_chars digit_or_space pre = true.
Proof.
  unfold Date.day_alts. destruct r as [|a [|b r]]; [contradiction| |].
  - intros H. alt_case H. exists (String a ""). split; [reflexivity|].
    simpl. rewrite andb_true_r. digit_or_space_tac.
  - intros H. repeat (apply in_app_or in H as [H|H]); alt_case H.
    + exists (String a (String b "")). split; [reflexivity|]. simpl.
      rewrite andb_true_r. apply andb_true_iff. split; digit_or_space_tac.
    + exists (String a (String b "")). split; [reflexivity|]. simpl.
      rewrite andb_true_r. apply andb_true_iff. split; digit_or_space_tac.
    + exists (String a (String b "")). split; [reflexivity|]. simpl.
      rewrite andb_true_r. apply andb_true_iff. split; digit_or_space_tac.
    + exists (String a ""). split; [reflexivity|]. simpl.
      rewrite andb_true_r. digit_or_space_tac.
    + exists (String a (String b "")). split; [reflexivity|]. simpl.
      rewrite andb_true_r. apply andb_true_iff. split; digit_or_space_tac.
Qed.

Lemma month_day_match_chars (r : string) (m d : Z) :
  Date.month_day_match r = Some (m, d, "") ->
  Str.all_chars digit_or_space r = true.
Proof.
  unfold Date.month_day_match. intros H. apply hd_error_in in H.
  apply in_flat_map in H as ([m' r1] & Hm & H).
  apply in_map_iff in H as ([d' r2] & E & Hd). simpl in E, Hd.
  injection E as _ _ ->.
  destruct (month_alts_chars _ _ _ Hm) as (p1 & -> & H1).
  destruct (day_alts_chars _ _ _ Hd) as (p2 & -> & H2).
  rewrite !all_chars_app, H1, H2. reflexivity.
Qed.

Lemma decimal_char_digit (c : ascii) :
  Str.is_decimal c = true ->
  c = Date.digit (Date.digit_value c) /\ 0 <= Date.digit_value c <= 9.
Proof.
  destruct c as [[] [] [] [] [] [] [] []]; intros H; vm_compute in H;
    try discriminate; split; try reflexivity; vm_compute; split; discriminate.
Qed.

Lemma four_digits_month_day (k1 k2 k3 k4 m d : Z) :
  0 <= k1 <= 9 -> 0 <= k2 <= 9 -> 0 <= k3 <= 9 -> 0 <= k4 <= 9 ->
  Date.month_day_match
    (String (Date.digit k1) (String (Date.digit k2)
       (String (Date.digit k3) (String (Date.digit k4) ""))))
  = Some (m, d, "") ->
  Date.zfill 2 (Date.decimal m) = String (Date.digit k1) (String (Date.digit k2) "")
  /\ Date.zfill 2 (Date.decimal d)
     = String (Date.digit k3) (String (Date.digit k4) "").
Proof.
  intros H1 H2 H3 H4.
  pose (check := fun k1 k2 k3 k4 =>
    match Date.month_day_match
            (String (Date.digit k1) (String (Date.digit k2)
               (String (Date.digit k3) (String (Date.digit k4) "")))) with
    | Some (m, d, "") =>
        String.eqb (Date.zfill 2 (Date.decimal m))
                   (String (Date.digit k1) (String (Date.digit k2) ""))
        && String.eqb (Date.zfill 2 (Date.decimal d))
                      (String (Date.digit k3) (String (Date.digit k4) ""))
    | _ => true
    end).
  assert (C : check k1 k2 k3 k4 = true).
  { apply (Z_range_forall (check k1 k2 k3) 10 0); [|lia].
    apply (Z_range_forall (fun k3 => all_from (check k1 k2 k3) 0 10) 10 0);
      [|lia].
    apply (Z_range_forall
             (fun k2 => all_from (fun k3 => all_from (check k1 k2 k3) 0 10) 0 10)
             10 0); [|lia].
    apply (Z_range_forall
             (fun k1 => all_from
                (fun k2 => all_from (fun k3 => all_from (check k1 k2 k3) 0 10)
                                    0 10) 0 10)
             10 0); [vm_compute; reflexivity | lia]. }
  intros E. unfold check in C. rewrite E in C.
  apply andb_true_iff in C as [C1 C2].
  apply String.eqb_eq in C1, C2. auto.
Qed.

Lemma digit_mod (x y : Z) : x mod 10 = y mod 10 -> Date.digit x = Date.digit y.
Proof. unfold Date.digit. intros ->. reflexivity. Qed.

(** An eight-digit field that [strptime] reads is, cut at 4 and 6, what
    [strftime] writes for its date. *)
Lemma eight_digits_roundtrip (a b c d e f g h : ascii) (dt : Date.date) :
  Str.all_chars Str.is_decimal
    (String a (String b (String c (String d
       (String e (String f (String g (String h "")))))))) = true ->
  Date.strptime_Ymd
    (String a (String b (String c (String d
       (String e (String f (String g (String h "")))))))) = Some dt ->
  1000 <= Date.year dt ->
  Date.fmt_Y dt = String a (String b (String c (String d "")))
  /\ Date.fmt_m dt = String e (String f "")
  /\ Date.fmt_d dt = String g (String h "").
Proof.
  intros Hdec H Hk. simpl in Hdec. rewrite !andb_true_iff in Hdec.
  destruct Hdec as (Da & Db & Dc & Dd & De & Df & Dg & Dh & _).
  destruct (decimal_char_digit a Da) as [Ea Ba].
  destruct (decimal_char_digit b Db) as [Eb Bb].
  destruct (decimal_char_digit c Dc) as [Ec Bc].
  destruct (decimal_char_digit d Dd) as [Ed Bd].
  destruct (decimal_char_digit e De) as [Ee Be].
  destruct (decimal_char_digit f Df) as [Ef Bf].
  destruct (decimal_char_digit g Dg) as [Eg Bg].
  destruct (decimal_char_digit h Dh) as [Eh Bh].
  unfold Date.strptime_Ymd, Date.first_match in H.
  rewrite Da, Db, Dc, Dd in H. cbv [andb] in H.
  destruct (Date.month_day_match _) as [[[m d'] rest]|] eqn:M; [|discriminate].
  destruct rest; [|discriminate].
  remember (1000 * Date.digit_value a + 100 * Date.digit_value b
            + 10 * Date.digit_value c + Date.digit_value d) as y eqn:Ey.
  destruct (Date.valid _) eqn:V; [|discriminate]. injection H as <-.
  destruct (valid_bounds _ V) as (Hy & _).
  unfold Date.fmt_Y, Date.fmt_m, Date.fmt_d.
  change (Date.year (Date.mkdate y m d')) with y in *.
  change (Date.month (Date.mkdate y m d')) with m.
  change (Date.day (Date.mkdate y m d')) with d'.
  rewrite Ee, Ef, Eg, Eh in M.
  destruct (four_digits_month_day _ _ _ _ _ _ Be Bf Bg Bh M) as [Fm Fd].
  rewrite Fm, Fd, <- Ee, <- Ef, <- Eg, <- Eh.
  split; [|auto]. rewrite (fmt_Y_digits y) by lia.
  rewrite Ea, Eb, Ec, Ed. subst y.
  f_equal; [|f_equal; [|f_equal; [|f_equal]]]; try reflexivity; apply digit_mod;
    Z.div_mod_to_equations; lia.
Qed.

Lemma strptime_chars (s : string) (dt : Date.date) :
  Date.strptime_Ymd s = Some dt -> Str.all_chars digit_or_space s = true.
Proof.
  unfold Date.strptime_Ymd, Date.first_match.
  destruct s as [|a [|b [|c [|d r]]]]; try discriminate.
  destruct (Str.is_decimal a && Str.is_decimal b && Str.is_decimal c
            && Str.is_decimal d) eqn:C; [|discriminate].
  destruct (Date.month_day_match r) as [[[m d'] rest]|] eqn:M; [|discriminate].
  destruct rest; [|discriminate]. intros _.
  rewrite !andb_true_iff in C. destruct C as [[[Ca Cb] Cc] Cd].
  simpl. unfold digit_or_space at 1 2 3 4. rewrite Ca, Cb, Cc, Cd.
  apply (month_day_match_chars _ _ _ M).
Qed.

(** X13: when the date field of a name is made of eight decimal digits
    and is read as a date of the year 1000 or later, the three
    directories of the computed destination are the field itself cut in
    three: its first four digits, the next two and the last two. *)
Theorem dated_directories_spell_the_field (self : Importer) (fs : FS.t)
  (path : Path) (digits : string) (dt : Date.date) :
  entry_name (PathOps.name path) = true ->
  date_part (PathOps.name path) = Some digits ->
  Str.all_chars Str.is_decimal digits = true ->
  String.length digits = 8%nat ->
  Date.strptime_Ymd digits = Some dt ->
  1000 <= Date.year dt ->
  _library_destination_for self fs path
  = Ok (library self
        ++ [String.substring 0 4 digits; String.substring 4 2 digits;
            String.substring 6 2 digits; PathOps.name path])%list.
Proof.
  intros Hn Hd Hdec Hlen Hp Hk.
  rewrite (dated_destination self fs path digits dt Hn Hd Hp).
  destruct digits as [|a [|b [|c [|d [|e [|f [|g [|h [|]]]]]]]]];
    try discriminate.
  destruct (eight_digits_roundtrip a b c d e f g h dt Hdec Hp Hk)
    as (-> & -> & ->).
  reflexivity.
Qed.

Lemma dated_directories_spell_the_field_witness :
  _library_destination_for Sample.importer [] (Sample.file "PXL_20231231_235959999.JPG")
  = Ok (library Sample.importer
        ++ [String.substring 0 4 "20231231"; String.substring 4 2 "20231231";
            String.substring 6 2 "20231231"; "PXL_20231231_235959999.JPG"])%list.
Proof.
  apply (dated_directories_spell_the_field Sample.importer []
           (Sample.file "PXL_20231231_235959999.JPG") "20231231"
           (Date.mkdate 2023 12 31)); try reflexivity.
  vm_compute. discriminate.
Defined.

Lemma digit_or_space_no_superscript (s : string) :
  Str.all_chars digit_or_space s = true -> has_superscript s = false.
Proof.
  unfold has_superscript. intros H. apply negb_false_iff.
  induction s as [|c s IH]; [reflexivity|].
  simpl in *. apply andb_true_iff in H as [Hc Hs]. rewrite (IH Hs), andb_true_r.
  clear IH Hs. destruct c as [[] [] [] [] [] [] [] []]; vm_compute in Hc;
    try discriminate; reflexivity.
Qed.

(** X14: [str.isdigit] accepts more than [strptime] reads.  A date field
    that passes for digits and holds a superscript two, three or one is
    never read as a date: the file is computed to go to
    [<quarantine>/<name>]. *)
Theorem superscript_field_quarantined (self : Importer) (fs : FS.t)
  (path : Path) (digits : string) :
  entry_name (PathOps.name path) = true ->
  date_part (PathOps.name path) = Some digits ->
  has_superscript digits = true ->
  _library_destination_for self fs path
  = Ok (quarantine self ++ [PathOps.name path])%list.
Proof.
  intros Hn Hd Hs. rewrite library_destination_cases, Hd.
  destruct (Date.strptime_Ymd digits) as [dt|] eqn:E.
  - rewrite (digit_or_space_no_superscript digits (strptime_chars _ _ E)) in Hs.
    discriminate.
  - rewrite joinpath_entry by exact Hn. reflexivity.
Qed.

Lemma superscript_field_quarantined_witness :
  _library_destination_for Sample.importer []
    (Sample.file (String "P" (String "_" (String (ascii_of_N 178) "0240101_1.mp4"))))
  = Ok ["t"; "quarantine";
        String "P" (String "_" (String (ascii_of_N 178) "0240101_1.mp4"))].
Proof.
  apply (superscript_field_quarantined Sample.importer []
           (Sample.file
              (String "P" (String "_" (String (ascii_of_N 178) "0240101_1.mp4"))))
           (String (ascii_of_N 178) "0240101")); reflexivity.
Defined.
